(** * The agentic research workflow: retry wrapper, fact-check
      accumulation and the iteration loop

    A shallow embedding of [workflows/research.py] and of the records of
    [models/schemas.py] it manipulates.

    - A Python [str] is a [string] holding its UTF-8 encoding: equality,
      emptiness, concatenation and occurrence of one text in another are
      those of the encodings, and slicing [s[:n]] keeps the first [n]
      characters, not the first [n] bytes ([str_prefix], [str_prefix_utf8]).
      A Python [int] is a [Z], a [float] that the code only stores and
      copies is a [Q], a [set] of [str] is a [gset string], a [list] is a
      [list].
    - Converting an [int] to text, as an f-string does, raises [ValueError]
      beyond 4300 digits ([str_of_int], [format_ints]), and a division of
      [int]s raises [OverflowError] when the quotient is too large for a
      [float] ([true_div]).
    - [Runner.run] talks to a hosted model.  It is a parameter of the
      development: a transition function on an arbitrary service state.
      Every call is recorded, with its outcome, in a ghost log.
    - The coroutines of the source run sequentially; they are written in a
      state-and-exception monad over the world (service state and log).
    - The text of the large prompts does not influence the control flow;
      the prompt builders are parameters that receive every value the
      corresponding f-string reads.  What can raise while a prompt is built
      is spelled out: the numbers formatted by the researcher's and the
      evaluator's prompt ([researcher_prompt_numbers],
      [evaluator_prompt_numbers]) and the removal rate
      ([fact_check_section]).  The retry instruction of [_run_with_retry]
      is spelled out in full ([current_prompt]).
    - The functions are modelled as called with [verbose=False]: console
      output is not modelled. *)

From Stdlib Require Import QArith Ascii.
From stdpp Require Import gmap strings list pretty.

Open Scope string_scope.
Open Scope list_scope.
Open Scope Z_scope.

(** ** Schemas ([models/schemas.py]) *)

Module Finding.
Record t := mk { content : string; source : string }.
End Finding.
Abbreviation Finding := Finding.t.

Module Evidence.
Record t := mk { title : string; url : string; summary : string }.
End Evidence.
Abbreviation Evidence := Evidence.t.

Module VerifiedEvidence.
Record t := mk {
  title : string;
  url : string;
  original_url : string;
  summary : string;
  status : string;
  verification_note : string }.
End VerifiedEvidence.
Abbreviation VerifiedEvidence := VerifiedEvidence.t.

Module RemovedEvidence.
Record t := mk { title : string; original_url : string; reason : string }.
End RemovedEvidence.
Abbreviation RemovedEvidence := RemovedEvidence.t.

Module VerifiedFinding.
Record t := mk {
  content : string;
  source : string;
  source_url : string;
  confidence : string }.
End VerifiedFinding.
Abbreviation VerifiedFinding := VerifiedFinding.t.

Module RemovedFinding.
Record t := mk { content : string; source : string; reason : string }.
End RemovedFinding.
Abbreviation RemovedFinding := RemovedFinding.t.

Module FactCheckResultOutput.
Record t := mk {
  verified_evidences : list VerifiedEvidence;
  removed_evidences : list RemovedEvidence;
  verified_findings : list VerifiedFinding;
  removed_findings : list RemovedFinding;
  verification_summary : string;
  total_verified : Z;
  total_removed : Z;
  reliability_score : Q }.

(** The only constrained field: [Field(default=0.0, ge=0.0, le=1.0)]. *)
Definition validated (fc : t) : Prop :=
  (0 <= reliability_score fc)%Q /\ (reliability_score fc <= 1)%Q.
End FactCheckResultOutput.
Abbreviation FactCheckResultOutput := FactCheckResultOutput.t.

Module SearchPlanOutput.
Record t := mk {
  objective : string;
  research_areas : list string;
  search_keywords : list (string * list string);
  priority_order : list string;
  research_strategy : string;
  expected_outcomes : list string }.
End SearchPlanOutput.
Abbreviation SearchPlanOutput := SearchPlanOutput.t.

Module ResearchResultOutput.
Record t := mk {
  theme : string;
  plan_used : option SearchPlanOutput;
  findings : list Finding;
  evidence : list Evidence;
  research_depth_analysis : string;
  interconnections : list string;
  summary : string;
  iteration_number : Z }.

(** [current_result.findings = v] and [current_result.evidence = v]:
    attribute assignment on the object. *)
Definition set_findings (v : list Finding) (r : t) : t :=
  mk (theme r) (plan_used r) v (evidence r) (research_depth_analysis r)
     (interconnections r) (summary r) (iteration_number r).

Definition set_evidence (v : list Evidence) (r : t) : t :=
  mk (theme r) (plan_used r) (findings r) v (research_depth_analysis r)
     (interconnections r) (summary r) (iteration_number r).
End ResearchResultOutput.
Abbreviation ResearchResultOutput := ResearchResultOutput.t.

Module EvaluationOutput.
Record t := mk {
  iteration_number : Z;
  objective_achievement_score : Z;
  coverage_score : Z;
  depth_insight_score : Z;
  actionability_score : Z;
  credibility_score : Z;
  quantitative_score : Z;
  coverage_gaps : list string;
  overall_quality_score : Z;
  should_refine : bool;
  refinement_strategy : option string;
  refined_plan : option SearchPlanOutput;
  expert_observations : string }.

(** [evaluation.iteration_number = iteration]. *)
Definition set_iteration_number (i : Z) (e : t) : t :=
  mk i (objective_achievement_score e) (coverage_score e)
     (depth_insight_score e) (actionability_score e) (credibility_score e)
     (quantitative_score e) (coverage_gaps e) (overall_quality_score e)
     (should_refine e) (refinement_strategy e) (refined_plan e)
     (expert_observations e).
End EvaluationOutput.
Abbreviation EvaluationOutput := EvaluationOutput.t.

(** ** Records the loop builds as [dict]s *)

(** An element of [fact_check_history]. *)
Module FactCheckEntry.
Record t := mk {
  iteration : Z;
  verified : Z;
  removed : Z;
  reliability : Q;
  removed_reasons : list string;
  summary : string }.
End FactCheckEntry.
Abbreviation FactCheckEntry := FactCheckEntry.t.

(** An element of [raw_results]: plain copies of the researcher's fields. *)
Module RawResult.
Record finding := mk_finding { content : string; source : string }.
Record evidence_item := mk_evidence { title : string; url : string; summary_text : string }.
Record t := mk {
  iteration : Z;
  findings : list finding;
  evidence : list evidence_item;
  summary : string }.
End RawResult.
Abbreviation RawResult := RawResult.t.

(** ** Agents, exceptions and the call log *)

Inductive AgentName := Planner | Researcher | FactChecker | Evaluator.

#[global] Instance AgentName_eq_dec : EqDecision AgentName.
Proof. solve_decision. Defined.

(** The [output_type] each agent is created with. *)
Definition output_type (a : AgentName) : Type :=
  match a with
  | Planner => SearchPlanOutput
  | Researcher => ResearchResultOutput
  | FactChecker => FactCheckResultOutput
  | Evaluator => EvaluationOutput
  end.

(** [ModelBehaviorError] is the one exception [_run_with_retry] catches;
    the payload identifies the exception object. *)
Inductive exn :=
| ModelBehaviorError (msg : string)
| OtherException (msg : string)
| TypeError (msg : string)
| ValueError (msg : string)
| OverflowError (msg : string).

Definition is_ModelBehaviorError (e : exn) : bool :=
  match e with ModelBehaviorError _ => true | _ => false end.

Record Call := mkCall {
  call_agent : AgentName;
  call_prompt : string;
  call_outcome : exn + output_type call_agent }.

Definition calls_to (a : AgentName) (log : list Call) : list Call :=
  filter (fun c => call_agent c = a) log.

(** ** Python helpers *)

(** A byte [10xxxxxx] continues the character begun before it. *)
Definition is_continuation (a : ascii) : bool :=
  match a with Ascii _ _ _ _ _ _ b6 b7 => b7 && negb b6 end.

(** [s[:n]]: the first [n] characters.  A character is a leading byte and
    the continuation bytes that follow it; the slice ends where character
    number [n + 1] would begin. *)
Fixpoint str_prefix (n : nat) (s : string) : string :=
  match s with
  | EmptyString => EmptyString
  | String a rest =>
      if is_continuation a then String a (str_prefix n rest)
      else
        match n with
        | O => EmptyString
        | Datatypes.S n' => String a (str_prefix n' rest)
        end
  end.

(** The UTF-8 encoding of a code point (0 to 0x10FFFF), and of a text given
    by its code points. *)
Definition continuation_byte (c i : N) : ascii :=
  Ascii (N.testbit c i) (N.testbit c (i + 1)) (N.testbit c (i + 2))
        (N.testbit c (i + 3)) (N.testbit c (i + 4)) (N.testbit c (i + 5))
        false true.

Definition utf8_char (c : N) : string :=
  if (c <? 0x80)%N then
    String (Ascii (N.testbit c 0) (N.testbit c 1) (N.testbit c 2)
                  (N.testbit c 3) (N.testbit c 4) (N.testbit c 5)
                  (N.testbit c 6) false) EmptyString
  else if (c <? 0x800)%N then
    String (Ascii (N.testbit c 6) (N.testbit c 7) (N.testbit c 8)
                  (N.testbit c 9) (N.testbit c 10) false true true)
      (String (continuation_byte c 0) EmptyString)
  else if (c <? 0x10000)%N then
    String (Ascii (N.testbit c 12) (N.testbit c 13) (N.testbit c 14)
                  (N.testbit c 15) false true true true)
      (String (continuation_byte c 6)
         (String (continuation_byte c 0) EmptyString))
  else
    String (Ascii (N.testbit c 18) (N.testbit c 19) (N.testbit c 20)
                  false true true true true)
      (String (continuation_byte c 12)
         (String (continuation_byte c 6)
            (String (continuation_byte c 0) EmptyString))).

Fixpoint utf8 (text : list N) : string :=
  match text with
  | [] => EmptyString
  | c :: rest => utf8_char c +:+ utf8 rest
  end.

Definition code_point (c : N) : Prop := (c < 0x110000)%N.

(** [range(start, stop)] *)
Definition range (start stop : Z) : list Z := seqZ start (stop - start).

(** [bool(s)] for a [str] *)
Definition str_truthy (s : string) : bool :=
  match s with EmptyString => false | String _ _ => true end.

(** [bool(l)] for a [list] *)
Definition list_truthy {A} (l : list A) : bool :=
  match l with [] => false | _ :: _ => true end.

(** ** Numbers in f-strings *)

(** [sys.get_int_max_str_digits()]: converting an [int] with more decimal
    digits to [str] raises [ValueError]. *)
Definition int_max_str_digits : Z := 4300.

Definition int_str_bound : Z := 10 ^ int_max_str_digits.

Definition int_str_limit_error : exn :=
  ValueError "Exceeds the limit (4300 digits) for integer string conversion; use sys.set_int_max_str_digits() to increase the limit".

Definition printable (z : Z) : Prop := Z.abs z < int_str_bound.

(** [str(z)], also what [f'{z}'] evaluates. *)
Definition str_of_int (z : Z) : exn + string :=
  if decide (printable z) then inr (pretty z) else inl int_str_limit_error.

(** The conversions of an f-string that formats [numbers], in this order. *)
Fixpoint format_ints (numbers : list Z) : exn + unit :=
  match numbers with
  | [] => inr tt
  | z :: rest =>
      match str_of_int z with
      | inl e => inl e
      | inr _ => format_ints rest
      end
  end.

(** [a / b] on [int]s, for [0 < b]: the quotient is rounded to the nearest
    [float], and the division raises [OverflowError] when that is beyond the
    largest one, which is the case from [2^1024 - 2^970] on.  The quotient
    itself is only printed. *)
Definition float_overflow_bound : Z := 2 ^ 1024 - 2 ^ 970.

Definition int_division_error : exn :=
  OverflowError "integer division result too large for a float".

Definition true_div (a b : Z) : exn + unit :=
  if decide (float_overflow_bound * b <= Z.abs a) then inl int_division_error
  else inr tt.

Definition and_then {A B} (x : exn + A) (k : A -> exn + B) : exn + B :=
  match x with
  | inl e => inl e
  | inr a => k a
  end.

Definition MAX_PARSE_RETRIES : Z := 2.

(** The f-string appended to the prompt on retry [attempt]: a header that
    carries the retry counter, then the constant instructions. *)
Definition retry_header (attempt max_retries : Z) : string :=
  "

【⚠️ リトライ " +:+ pretty attempt +:+ "/" +:+ pretty max_retries +:+ " - 出力量削減指示】
".

Definition shrink_output_instructions : string :=
  "前回の出力がトークン制限で切り詰められ、JSONが壊れました。
以下を厳守し、必ず完全なJSONを出力してください:
- findings は最大 8 件に制限する（重要なものだけ厳選）
- evidence は最大 5 件に制限する（最も信頼性の高いもの）
- summary は 200 字以内にする
- research_depth_analysis, interconnections は簡潔に（各 100 字以内）
- plan_used は objective のみ記載し他は省略可能
- 完全なJSON構造（すべての括弧が閉じている）を優先すること
".

Definition retry_amendment (attempt max_retries : Z) : string :=
  retry_header attempt max_retries +:+ shrink_output_instructions.

(** ** The pure steps of one iteration of [run_agentic_research] *)

(** [f.content[:80]], the deduplication key of a finding. *)
Definition content_key (f : Finding) : string :=
  str_prefix 80 (Finding.content f).

(** [{vf.content[:80] for vf in fact_check.verified_findings}] *)
Definition verified_contents (fc : FactCheckResultOutput) : gset string :=
  list_to_set
    ((fun vf => str_prefix 80 (VerifiedFinding.content vf))
       <$> FactCheckResultOutput.verified_findings fc).

(** One turn of [for ve in fact_check.verified_evidences]. *)
Definition add_verified_url (urls : gset string) (ve : VerifiedEvidence)
    : gset string :=
  let original :=
    if str_truthy (VerifiedEvidence.original_url ve)
    then VerifiedEvidence.original_url ve else VerifiedEvidence.url ve in
  let urls1 := if str_truthy original then urls ∪ {[original]} else urls in
  if str_truthy (VerifiedEvidence.url ve)
  then urls1 ∪ {[VerifiedEvidence.url ve]} else urls1.

Definition verified_urls (fc : FactCheckResultOutput) : gset string :=
  foldl add_verified_url ∅ (FactCheckResultOutput.verified_evidences fc).

(** The researcher's own findings and evidence that passed the check. *)
Definition iteration_accepted_findings (current_result : ResearchResultOutput)
    (fc : FactCheckResultOutput) : list Finding :=
  filter (fun f => content_key f ∈ verified_contents fc)
         (ResearchResultOutput.findings current_result).

Definition iteration_accepted_evidence (current_result : ResearchResultOutput)
    (fc : FactCheckResultOutput) : list Evidence :=
  filter (fun e => Evidence.url e ∈ verified_urls fc)
         (ResearchResultOutput.evidence current_result).

(** One turn of [for f in iteration_accepted_findings], on the pair
    ([accepted_findings], [existing_contents]). *)
Definition merge_finding (st : list Finding * gset string) (f : Finding)
    : list Finding * gset string :=
  if decide (content_key f ∈ st.2) then st
  else (st.1 ++ [f], st.2 ∪ {[content_key f]}).

Definition existing_contents (accepted : list Finding) : gset string :=
  list_to_set (content_key <$> accepted).

Definition accumulate_findings (accepted new : list Finding) : list Finding :=
  (foldl merge_finding (accepted, existing_contents accepted) new).1.

(** One turn of [for e in iteration_accepted_evidence], on the pair
    ([accepted_evidence], [existing_urls]). *)
Definition merge_evidence (st : list Evidence * gset string) (e : Evidence)
    : list Evidence * gset string :=
  if str_truthy (Evidence.url e) && bool_decide (Evidence.url e ∉ st.2)
  then (st.1 ++ [e], st.2 ∪ {[Evidence.url e]})
  else st.

Definition existing_urls (accepted : list Evidence) : gset string :=
  list_to_set (Evidence.url <$> accepted).

Definition accumulate_evidence (accepted new : list Evidence) : list Evidence :=
  (foldl merge_evidence (accepted, existing_urls accepted) new).1.

(** The [removed_reasons] list of a history entry. *)
Definition removed_reasons_of (fc : FactCheckResultOutput) : list string :=
  ((fun rf => str_prefix 50 (RemovedFinding.content rf) +:+ "... → "
              +:+ RemovedFinding.reason rf)
     <$> FactCheckResultOutput.removed_findings fc)
  ++ ((fun re_ => "URL: " +:+ RemovedEvidence.original_url re_ +:+ " → "
                  +:+ RemovedEvidence.reason re_)
        <$> FactCheckResultOutput.removed_evidences fc).

(** The entry appended when the fact check ran. *)
Definition checked_entry (iteration : Z) (fc : FactCheckResultOutput)
    : FactCheckEntry :=
  FactCheckEntry.mk iteration
    (FactCheckResultOutput.total_verified fc)
    (FactCheckResultOutput.total_removed fc)
    (FactCheckResultOutput.reliability_score fc)
    (removed_reasons_of fc)
    (FactCheckResultOutput.verification_summary fc).

(** The ratio [verified / max(verified + removed, 1)]. *)
Definition verified_ratio (verified removed : Z) : Q :=
  (inject_Z verified / inject_Z (Z.max (verified + removed) 1))%Q.

(** The entry appended when the fact check was skipped. *)
Definition skipped_entry (iteration : Z) : FactCheckEntry :=
  FactCheckEntry.mk iteration 0 0 0%Q []
    "ファクトチェックをスキップ（evidence/findingsが空）".

(** The dict appended to [raw_results]. *)
Definition raw_result_of (iteration : Z) (current_result : ResearchResultOutput)
    : RawResult :=
  RawResult.mk iteration
    ((fun f => RawResult.mk_finding (Finding.content f) (Finding.source f))
       <$> ResearchResultOutput.findings current_result)
    ((fun e => RawResult.mk_evidence (Evidence.title e) (Evidence.url e)
                 (Evidence.summary e))
       <$> ResearchResultOutput.evidence current_result)
    (ResearchResultOutput.summary current_result).

(** The local variables of [run_agentic_research] that live across
    iterations. *)
Record LoopState := mkLoopState {
  current_plan : SearchPlanOutput;
  evaluations : list EvaluationOutput;
  current_result : option ResearchResultOutput;
  raw_results : list RawResult;
  accepted_findings : list Finding;
  accepted_evidence : list Evidence;
  fact_check_history : list FactCheckEntry }.

(** [if fact_check is not None: ... else: ...]: the history entry and the
    accumulation into the pools. *)
Definition record_fact_check (iteration : Z) (r : ResearchResultOutput)
    (fact_check : option FactCheckResultOutput) (st : LoopState) : LoopState :=
  match fact_check with
  | Some fc =>
      mkLoopState (current_plan st) (evaluations st) (current_result st)
        (raw_results st)
        (accumulate_findings (accepted_findings st)
           (iteration_accepted_findings r fc))
        (accumulate_evidence (accepted_evidence st)
           (iteration_accepted_evidence r fc))
        (fact_check_history st ++ [checked_entry iteration fc])
  | None =>
      mkLoopState (current_plan st) (evaluations st) (current_result st)
        (raw_results st) (accepted_findings st) (accepted_evidence st)
        (fact_check_history st ++ [skipped_entry iteration])
  end.

(** ** Post-loop construction of the final result *)

Definition overwrite_findings (current_result : option ResearchResultOutput)
    (accepted : list Finding) : option ResearchResultOutput :=
  match current_result with
  | Some r =>
      if list_truthy accepted
      then Some (ResearchResultOutput.set_findings accepted r)
      else Some (ResearchResultOutput.set_findings [] r)
  | None => None
  end.

Definition overwrite_evidence (current_result : option ResearchResultOutput)
    (accepted : list Evidence) : option ResearchResultOutput :=
  match current_result with
  | Some r =>
      if list_truthy accepted
      then Some (ResearchResultOutput.set_evidence accepted r)
      else Some (ResearchResultOutput.set_evidence [] r)
  | None => None
  end.

Definition final_result (st : LoopState) : option ResearchResultOutput :=
  overwrite_evidence
    (overwrite_findings (current_result st) (accepted_findings st))
    (accepted_evidence st).

(** The returned 5-tuple. *)
Definition Returned : Type :=
  SearchPlanOutput * option ResearchResultOutput * list EvaluationOutput
  * list FactCheckEntry * list RawResult.

Definition returned_of (st : LoopState) : Returned :=
  (current_plan st, final_result st, evaluations st, fact_check_history st,
   raw_results st).

(** The text of [current_prompt] in attempt number [attempt]. *)
Definition attempt_prompt (prompt : string) (max_retries attempt : Z) : string :=
  if decide (attempt = 0) then prompt
  else prompt +:+ retry_amendment attempt max_retries.

(** [current_prompt] of attempt number [attempt]: the prompt itself, or the
    prompt followed by an f-string that formats both counters. *)
Definition current_prompt (prompt : string) (max_retries attempt : Z)
    : exn + string :=
  if decide (attempt = 0) then inr prompt
  else and_then (format_ints [attempt; max_retries])
         (fun _ => inr (prompt +:+ retry_amendment attempt max_retries)).

(** ** Numbers formatted by the prompts of the loop *)

(** The researcher's prompt formats the counts of the latest history entry,
    two scores of the last evaluation when it lists gaps, and the iteration
    number.  (It also formats lengths of lists, which are below [2^63] and
    always convert.) *)
Definition researcher_prompt_numbers (iteration : Z)
    (fact_check_history : list FactCheckEntry)
    (evaluations : list EvaluationOutput) : list Z :=
  match last fact_check_history with
  | Some latest_fc =>
      [FactCheckEntry.verified latest_fc; FactCheckEntry.removed latest_fc]
  | None => []
  end
  ++ match last evaluations with
     | Some last_eval =>
         if list_truthy (EvaluationOutput.coverage_gaps last_eval)
         then [EvaluationOutput.overall_quality_score last_eval;
               EvaluationOutput.credibility_score last_eval]
         else []
     | None => []
     end
  ++ [iteration].

(** One line of [past_eval_summary]: the iteration number, then the
    scores. *)
Definition score_numbers (past_eval : EvaluationOutput) : list Z :=
  [EvaluationOutput.overall_quality_score past_eval;
   EvaluationOutput.objective_achievement_score past_eval;
   EvaluationOutput.coverage_score past_eval;
   EvaluationOutput.depth_insight_score past_eval;
   EvaluationOutput.actionability_score past_eval;
   EvaluationOutput.credibility_score past_eval;
   EvaluationOutput.quantitative_score past_eval].

Definition past_eval_numbers (past_eval : EvaluationOutput) : list Z :=
  EvaluationOutput.iteration_number past_eval :: score_numbers past_eval.

(** One line of the cumulative fact-check history. *)
Definition history_line_numbers (fc : FactCheckEntry) : list Z :=
  [FactCheckEntry.iteration fc; FactCheckEntry.verified fc;
   FactCheckEntry.removed fc].

(** [fact_check_section]: the counts of the latest entry, the removal rate
    [removed / max(verified + removed, 1)] when something was removed, and
    one line per entry when there is more than one. *)
Definition fact_check_section (fact_check_history : list FactCheckEntry)
    : exn + unit :=
  match last fact_check_history with
  | None => inr tt
  | Some latest_fc =>
      let verified := FactCheckEntry.verified latest_fc in
      let removed := FactCheckEntry.removed latest_fc in
      and_then (format_ints [verified; removed]) (fun _ =>
      and_then
        (if decide (removed > 0)
         then and_then (true_div removed (Z.max (verified + removed) 1))
                (fun _ => format_ints [removed])
         else inr tt) (fun _ =>
      if decide (1 < length fact_check_history)%nat
      then format_ints (concat (history_line_numbers <$> fact_check_history))
      else inr tt))
  end.

(** What building the evaluator's prompt evaluates before the text is put
    together: the summary of the past evaluations, the fact-check section,
    and the two counters of the last line. *)
Definition evaluator_prompt_numbers (evaluations : list EvaluationOutput)
    (fact_check_history : list FactCheckEntry) (iteration max_iterations : Z)
    : exn + unit :=
  and_then (format_ints (concat (past_eval_numbers <$> evaluations))) (fun _ =>
  and_then (fact_check_section fact_check_history) (fun _ =>
  format_ints [iteration; max_iterations])).

(** ** The world monad and [_run_with_retry] *)

Section Workflow.

(** The hosted model service behind [Runner.run(agent, prompt)] followed by
    [result.final_output_as(output_type)]. *)
Context {Svc : Type}.
Variable runner : forall a : AgentName, string -> Svc -> (exn + output_type a) * Svc.

Record World := mkWorld { service : Svc; calls : list Call }.

Definition M (A : Type) : Type := World -> (exn + A) * World.

Definition ret {A} (x : A) : M A := fun w => (inr x, w).

Definition raise {A} (e : exn) : M A := fun w => (inl e, w).

Definition bind {A B} (m : M A) (k : A -> M B) : M B :=
  fun w => match m w with
           | (inr x, w') => k x w'
           | (inl e, w') => (inl e, w')
           end.

Notation "'let*' x ':=' m 'in' k" := (bind m (fun x => k))
  (at level 10, x pattern, m at level 100, k at level 200).

(** An expression that may raise, evaluated in the current world. *)
Definition lift {A} (x : exn + A) : M A := fun w => (x, w).

Definition Runner_run (a : AgentName) (prompt : string) : M (output_type a) :=
  fun w =>
    let '(r, s') := runner a prompt (service w) in
    (r, mkWorld s' (calls w ++ [mkCall a prompt r])).

(** [raise last_error]; raising [None] is a [TypeError]. *)
Definition raise_last {A} (last_error : option exn) : M A :=
  match last_error with
  | Some e => raise e
  | None => raise (TypeError "exceptions must derive from BaseException")
  end.

(** The body of [for attempt in range(1 + max_retries)], over the attempts
    still to be made. *)
Fixpoint retry_attempts (agent : AgentName) (prompt : string) (max_retries : Z)
    (attempts : list Z) (last_error : option exn) : M (output_type agent) :=
  match attempts with
  | [] => raise_last last_error
  | attempt :: rest => fun w =>
      match current_prompt prompt max_retries attempt with
      | inl e => (inl e, w)
      | inr current_prompt =>
          match Runner_run agent current_prompt w with
          | (inr output, w') => (inr output, w')
          | (inl (ModelBehaviorError msg), w') =>
              retry_attempts agent prompt max_retries rest
                (Some (ModelBehaviorError msg)) w'
          | (inl e, w') => (inl e, w')
          end
      end
  end.

Definition _run_with_retry (agent : AgentName) (prompt : string)
    (max_retries : Z) : M (output_type agent) :=
  retry_attempts agent prompt max_retries (range 0 (1 + max_retries)) None.

(** ** [run_agentic_research] *)

(** The texts of the f-strings sent to the agents, as functions of what
    they read. *)
Variable planner_prompt : string -> string.
Variable refinement_prompt : SearchPlanOutput -> string -> string.
Variable researcher_prompt :
  string -> Z -> SearchPlanOutput -> list Finding -> list Evidence ->
  list FactCheckEntry -> list EvaluationOutput -> string.
Variable fact_check_prompt : ResearchResultOutput -> string.
Variable evaluator_prompt :
  string -> SearchPlanOutput -> ResearchResultOutput -> list FactCheckEntry ->
  list EvaluationOutput -> Z -> Z -> string.

(** Plan creation, then the optional revision asked for on the console;
    [user_input] is the stripped line read by [input]. *)
Definition plan_step (theme user_input : string) : M SearchPlanOutput :=
  let* current_plan :=
    _run_with_retry Planner (planner_prompt theme) MAX_PARSE_RETRIES in
  if str_truthy user_input
  then _run_with_retry Planner (refinement_prompt current_plan user_input)
         MAX_PARSE_RETRIES
  else ret current_plan.

Definition research_step (theme : string) (iteration : Z) (st : LoopState)
    : M ResearchResultOutput :=
  let* _ :=
    lift (format_ints
            (researcher_prompt_numbers iteration (fact_check_history st)
               (evaluations st))) in
  _run_with_retry Researcher
    (researcher_prompt theme iteration (current_plan st) (accepted_findings st)
       (accepted_evidence st) (fact_check_history st) (evaluations st))
    MAX_PARSE_RETRIES.

(** The gate in front of the fact checker: [None] when there is nothing to
    check. *)
Definition fact_check_step (r : ResearchResultOutput)
    : M (option FactCheckResultOutput) :=
  let has_evidence := list_truthy (ResearchResultOutput.evidence r) in
  let has_findings := list_truthy (ResearchResultOutput.findings r) in
  if negb has_evidence && negb has_findings then ret None
  else
    let* fact_check :=
      _run_with_retry FactChecker (fact_check_prompt r) MAX_PARSE_RETRIES in
    ret (Some fact_check).

(** The rest of an iteration once the researcher has returned [r]; the
    boolean tells whether the loop executes [break]. *)
Definition after_research (theme : string) (max_iterations iteration : Z)
    (r : ResearchResultOutput) (st : LoopState) : M (LoopState * bool) :=
  let st1 :=
    mkLoopState (current_plan st) (evaluations st) (Some r)
      (raw_results st ++ [raw_result_of iteration r])
      (accepted_findings st) (accepted_evidence st) (fact_check_history st) in
  let* fact_check := fact_check_step r in
  let st2 := record_fact_check iteration r fact_check st1 in
  let* _ :=
    lift (evaluator_prompt_numbers (evaluations st2) (fact_check_history st2)
            iteration max_iterations) in
  let* evaluation :=
    _run_with_retry Evaluator
      (evaluator_prompt theme (current_plan st2) r (fact_check_history st2)
         (evaluations st2) iteration max_iterations)
      MAX_PARSE_RETRIES in
  let evaluation := EvaluationOutput.set_iteration_number iteration evaluation in
  let st3 :=
    mkLoopState (current_plan st2) (evaluations st2 ++ [evaluation])
      (current_result st2) (raw_results st2) (accepted_findings st2)
      (accepted_evidence st2) (fact_check_history st2) in
  if negb (EvaluationOutput.should_refine evaluation)
     || bool_decide (iteration >= max_iterations)
  then ret (st3, true)
  else
    match EvaluationOutput.refined_plan evaluation with
    | Some refined =>
        ret (mkLoopState refined (evaluations st3) (current_result st3)
               (raw_results st3) (accepted_findings st3)
               (accepted_evidence st3) (fact_check_history st3), false)
    | None => ret (st3, false)
    end.

(** [for iteration in range(1, max_iterations + 1)], over the iterations
    still to be run. *)
Fixpoint iterate (theme : string) (max_iterations : Z) (iterations : list Z)
    (st : LoopState) : M LoopState :=
  match iterations with
  | [] => ret st
  | iteration :: rest =>
      let* r := research_step theme iteration st in
      let* (st', stop) := after_research theme max_iterations iteration r st in
      if (stop : bool) then ret st' else iterate theme max_iterations rest st'
  end.

Definition initial_state (plan : SearchPlanOutput) : LoopState :=
  mkLoopState plan [] None [] [] [] [].

(** Planning and the loop, up to the state at loop exit. *)
Definition research_loop (theme : string) (max_iterations : Z)
    (user_input : string) : M LoopState :=
  let* plan := plan_step theme user_input in
  iterate theme max_iterations (range 1 (max_iterations + 1))
    (initial_state plan).

Definition run_agentic_research (theme : string) (max_iterations : Z)
    (user_input : string) : M Returned :=
  let* st := research_loop theme max_iterations user_input in
  ret (returned_of st).

End Workflow.

(** The number (from 1) of the first evaluation of a history that asks to
    stop, [None] if all ask to continue. *)
Fixpoint first_stop (evs : list EvaluationOutput) : option nat :=
  match evs with
  | [] => None
  | e :: rest =>
      if EvaluationOutput.should_refine e
      then Datatypes.S <$> first_stop rest
      else Some 1%nat
  end.

(** ** The citation lookup of [format_markdown_output] ([main.py]) *)

(** [a in b] for two [str]: [a] occurs in [b]. *)
Definition str_in (a b : string) : bool :=
  match String.index 0 a b with Some _ => true | None => false end.

(** The loop that looks for the evidence to cite under a finding: the first
    evidence whose title occurs in the finding's source or whose title
    contains it; [None] when the loop ends without [break]. *)
Definition matched_evidence (evidence : list Evidence) (finding : Finding)
    : option Evidence :=
  List.find
    (fun ev => str_in (Evidence.title ev) (Finding.source finding)
               || str_in (Finding.source finding) (Evidence.title ev))
    evidence.

(** ** Assumptions on the service used in the statements *)


(** The service answers every call with a value. *)
Definition never_raises {Svc : Type}
    (runner : forall a : AgentName, string -> Svc -> (exn + output_type a) * Svc)
    : Prop :=
  forall a prompt s, exists out s', runner a prompt s = (inr out, s').

(** The numbers the service reports are modest: the counts of a verdict are
    not negative and have at most 4300 digits, and the scores of an
    evaluation have at most 4300 digits. *)
Definition reports_modest_numbers {Svc : Type}
    (runner : forall a : AgentName, string -> Svc -> (exn + output_type a) * Svc)
    : Prop :=
  (forall prompt s (fc : FactCheckResultOutput) s',
     runner FactChecker prompt s = (inr fc, s') ->
     0 <= FactCheckResultOutput.total_verified fc < int_str_bound
     /\ 0 <= FactCheckResultOutput.total_removed fc < int_str_bound)
  /\ (forall prompt s (ev : EvaluationOutput) s',
        runner Evaluator prompt s = (inr ev, s') ->
        Forall printable (score_numbers ev)).



(** An evaluation history of a loop with [budget] iterations at its
    disposal: every evaluation but the last asked to continue, and the last
    one asked to stop unless the budget is used up. *)
Definition stops_as_told (budget : Z) (evs : list EvaluationOutput) : Prop :=
  exists continuing final,
    evs = continuing ++ [final]
    /\ Forall (fun e => EvaluationOutput.should_refine e = true) continuing
    /\ Z.of_nat (length evs) <= budget
    /\ (Z.of_nat (length evs) < budget ->
        EvaluationOutput.should_refine final = false).

(** ** Scripted services, used to run the definitions on concrete inputs *)

(** A service whose state counts the calls received so far and whose answer
    to a call is a function of that count. *)
Record Script := mkScript {
  on_planner : nat -> exn + SearchPlanOutput;
  on_researcher : nat -> exn + ResearchResultOutput;
  on_fact_checker : nat -> exn + FactCheckResultOutput;
  on_evaluator : nat -> exn + EvaluationOutput }.

Definition scripted (sc : Script) (a : AgentName) (prompt : string) (n : nat)
    : (exn + output_type a) * nat :=
  (match a return exn + output_type a with
   | Planner => on_planner sc n
   | Researcher => on_researcher sc n
   | FactChecker => on_fact_checker sc n
   | Evaluator => on_evaluator sc n
   end, Datatypes.S n).

Definition sample_plan : SearchPlanOutput :=
  SearchPlanOutput.mk "objective" ["area"] [("area", ["keyword"])] ["area"]
    "strategy" ["outcome"].

Definition sample_evaluation (should_refine : bool) : EvaluationOutput :=
  EvaluationOutput.mk 1 5 5 5 5 5 5 ["gap"] 30 should_refine None None "".

(** Every call fails with a malformed-output error numbered by the call. *)
Definition always_malformed_script : Script :=
  mkScript (fun n => inl (ModelBehaviorError (pretty n)))
           (fun n => inl (ModelBehaviorError (pretty n)))
           (fun n => inl (ModelBehaviorError (pretty n)))
           (fun n => inl (ModelBehaviorError (pretty n))).

(** Every call fails with a service error. *)
Definition service_down_script : Script :=
  mkScript (fun _ => inl (OtherException "connection refused"))
           (fun _ => inl (OtherException "connection refused"))
           (fun _ => inl (OtherException "connection refused"))
           (fun _ => inl (OtherException "connection refused")).

Definition empty_world : @World nat := mkWorld 0%nat [].


(** Prompt builders for the scripted runs. *)
Definition demo_planner_prompt (theme : string) : string := "plan " +:+ theme.

Definition demo_refinement_prompt (plan : SearchPlanOutput)
    (user_input : string) : string :=
  "revise " +:+ SearchPlanOutput.objective plan +:+ " " +:+ user_input.

Definition demo_researcher_prompt (theme : string) (iteration : Z)
    (plan : SearchPlanOutput) (accepted_f : list Finding)
    (accepted_e : list Evidence) (history : list FactCheckEntry)
    (evals : list EvaluationOutput) : string :=
  "research " +:+ theme +:+ " " +:+ pretty iteration.

Definition demo_fact_check_prompt (r : ResearchResultOutput) : string :=
  "check " +:+ ResearchResultOutput.summary r.

Definition demo_evaluator_prompt (theme : string) (plan : SearchPlanOutput)
    (r : ResearchResultOutput) (history : list FactCheckEntry)
    (evals : list EvaluationOutput) (iteration max_iterations : Z) : string :=
  "evaluate " +:+ pretty iteration +:+ "/" +:+ pretty max_iterations.

(** A researcher output with two findings and three evidence items, one of
    them without url. *)
Definition demo_findings : list Finding :=
  [Finding.mk "Agents act autonomously" "source A";
   Finding.mk "LLMs are large language models" "source B"].

Definition demo_evidence : list Evidence :=
  [Evidence.mk "T1" "https://example.com/1" "S1";
   Evidence.mk "T2" "https://example.com/2" "S2";
   Evidence.mk "T3" "" "S3"].

Definition demo_result : ResearchResultOutput :=
  ResearchResultOutput.mk "theme" (Some sample_plan) demo_findings
    demo_evidence "depth" ["link"] "summary" 7.

Definition empty_result : ResearchResultOutput :=
  ResearchResultOutput.mk "theme" None [] [] "" [] "nothing found" 1.

(** A verdict that keeps the first finding and the first evidence, echoes
    the evidence under a replacement url, and reports counts and a score
    that do not agree with each other. *)
Definition demo_verdict : FactCheckResultOutput :=
  FactCheckResultOutput.mk
    [VerifiedEvidence.mk "T1" "https://mirror.example.org/1"
       "https://example.com/1" "S1" "replaced" ""]
    [RemovedEvidence.mk "T2" "https://example.com/2" "fabricated"]
    [VerifiedFinding.mk "Agents act autonomously" "checked source"
       "https://mirror.example.org/1" "high"]
    [RemovedFinding.mk "LLMs are large language models" "source B"
       "unsupported"]
    "one of two kept" 3 1 (1 # 2).

(** The planner, researcher and fact checker always give the answers above;
    the evaluator asks to stop. *)
Definition demo_script : Script :=
  mkScript (fun _ => inr sample_plan) (fun _ => inr demo_result)
           (fun _ => inr demo_verdict)
           (fun _ => inr (sample_evaluation false)).

(** The researcher finds nothing and the evaluator always asks to
    continue. *)
Definition always_continue_script : Script :=
  mkScript (fun _ => inr sample_plan) (fun _ => inr empty_result)
           (fun _ => inr demo_verdict)
           (fun _ => inr (sample_evaluation true)).

Definition demo_state : LoopState := initial_state sample_plan.

(** One iteration after the researcher returned [r], on the scripted
    service [sc]. *)
Definition demo_after_research (sc : Script) (r : ResearchResultOutput)
    : (exn + LoopState * bool) * World :=
  after_research (scripted sc) demo_fact_check_prompt demo_evaluator_prompt
    "theme" 3 1 r demo_state empty_world.

(** A whole run on the scripted service [sc]. *)
Definition demo_loop (sc : Script) (max_iterations : Z)
    : (exn + LoopState) * World :=
  research_loop (scripted sc) demo_planner_prompt demo_refinement_prompt
    demo_researcher_prompt demo_fact_check_prompt demo_evaluator_prompt
    "theme" max_iterations "" empty_world.

Definition demo_run (sc : Script) (max_iterations : Z)
    : (exn + Returned) * World :=
  run_agentic_research (scripted sc) demo_planner_prompt
    demo_refinement_prompt demo_researcher_prompt demo_fact_check_prompt
    demo_evaluator_prompt "theme" max_iterations "" empty_world.

(** The fact-check history and the evaluations a scripted run returns
    (empty if it raises). *)
Definition demo_history (sc : Script) (max_iterations : Z)
    : list FactCheckEntry :=
  match (demo_run sc max_iterations).1 with
  | inr (_, _, _, history, _) => history
  | inl _ => []
  end.

Definition demo_evaluations (sc : Script) (max_iterations : Z)
    : list EvaluationOutput :=
  match (demo_run sc max_iterations).1 with
  | inr (_, _, evs, _, _) => evs
  | inl _ => []
  end.

Definition demo_final (sc : Script) (max_iterations : Z)
    : option ResearchResultOutput :=
  match (demo_run sc max_iterations).1 with
  | inr (_, final, _, _, _) => final
  | inl _ => None
  end.

(** The state, the break flag and the world after a scripted iteration, and
    the state and the world at the exit of the loop of a scripted run
    ([demo_state] if it raises). *)
Definition demo_iteration_state (sc : Script) (r : ResearchResultOutput)
    : LoopState :=
  match (demo_after_research sc r).1 with
  | inr (st, _) => st
  | inl _ => demo_state
  end.

Definition demo_iteration_stop (sc : Script) (r : ResearchResultOutput)
    : bool :=
  match (demo_after_research sc r).1 with
  | inr (_, stop) => stop
  | inl _ => false
  end.

Definition demo_iteration_world (sc : Script) (r : ResearchResultOutput)
    : World :=
  (demo_after_research sc r).2.

Definition demo_loop_state (sc : Script) (max_iterations : Z) : LoopState :=
  match (demo_loop sc max_iterations).1 with
  | inr st => st
  | inl _ => demo_state
  end.

Definition demo_loop_world (sc : Script) (max_iterations : Z) : World :=
  (demo_loop sc max_iterations).2.

(** The other components of what a scripted run returns, and the world it
    leaves. *)
Definition demo_raws (sc : Script) (max_iterations : Z) : list RawResult :=
  match (demo_run sc max_iterations).1 with
  | inr (_, _, _, _, raws) => raws
  | inl _ => []
  end.

Definition demo_returned_plan (sc : Script) (max_iterations : Z)
    : SearchPlanOutput :=
  match (demo_run sc max_iterations).1 with
  | inr (plan, _, _, _, _) => plan
  | inl _ => sample_plan
  end.

Definition demo_final_result (sc : Script) (max_iterations : Z)
    : ResearchResultOutput :=
  default empty_result (demo_final sc max_iterations).

Definition demo_run_world (sc : Script) (max_iterations : Z) : World :=
  (demo_run sc max_iterations).2.

(** Findings in Japanese.  The contents of the first two have 31
    characters and differ in the last one; those of the other two have 81
    characters and differ in the last one. *)
Fixpoint str_repeat (n : nat) (s : string) : string :=
  match n with
  | O => ""
  | Datatypes.S n' => s +:+ str_repeat n' s
  end.

Definition japanese_X : Finding :=
  Finding.mk (str_repeat 30 "あ" +:+ "X") "出所A".

Definition japanese_Y : Finding :=
  Finding.mk (str_repeat 30 "あ" +:+ "Y") "出所B".

Definition long_X : Finding := Finding.mk (str_repeat 80 "あ" +:+ "X") "出所A".

Definition long_Y : Finding := Finding.mk (str_repeat 80 "あ" +:+ "Y") "出所B".

(** The researcher reports both short findings; the checker verifies the
    second and removes the first. *)
Definition japanese_result : ResearchResultOutput :=
  ResearchResultOutput.set_findings [japanese_X; japanese_Y] demo_result.

Definition japanese_verdict : FactCheckResultOutput :=
  FactCheckResultOutput.mk [] []
    [VerifiedFinding.mk (Finding.content japanese_Y) "出所B" "" "high"]
    [RemovedFinding.mk (Finding.content japanese_X) "出所A" "裏付けなし"]
    "1件を除外" 1 1 (1 # 2).

(** The researcher reports the two short Japanese findings, the checker
    verifies the second and removes the first, the evaluator asks to stop. *)
Definition japanese_script : Script :=
  mkScript (fun _ => inr sample_plan) (fun _ => inr japanese_result)
           (fun _ => inr japanese_verdict)
           (fun _ => inr (sample_evaluation false)).

(** A run of three iterations.  The researcher reports [demo_result] and
    then the Japanese findings, the checker answers in kind, and the
    evaluator, which numbers every evaluation 9, asks to continue twice and
    then to stop.  The state of the service counts the calls: the planner
    receives call 0, the researcher calls 1, 4 and 7, the checker calls 2, 5
    and 8, the evaluator calls 3, 6 and 9. *)
Definition numbered_evaluation (should_refine : bool) : EvaluationOutput :=
  EvaluationOutput.mk 9 5 5 5 5 5 5 ["gap"] 30 should_refine None None "".

Definition busy_script : Script :=
  mkScript (fun _ => inr sample_plan)
           (fun n => inr (if decide (n <= 1)%nat then demo_result
                          else japanese_result))
           (fun n => inr (if decide (n <= 2)%nat then demo_verdict
                          else japanese_verdict))
           (fun n => inr (numbered_evaluation (bool_decide (n < 9)%nat))).

(** The state and the world after the first iteration of that run, and the
    rest of the loop from there. *)
Definition busy_first_iteration : (exn + LoopState) * World :=
  iterate (scripted busy_script) demo_researcher_prompt
    demo_fact_check_prompt demo_evaluator_prompt "theme" 5 [1] demo_state
    (mkWorld 1%nat []).

Definition busy_state : LoopState :=
  match busy_first_iteration.1 with
  | inr st => st
  | inl _ => demo_state
  end.

Definition busy_world : World := busy_first_iteration.2.

Definition busy_rest : (exn + LoopState) * World :=
  iterate (scripted busy_script) demo_researcher_prompt
    demo_fact_check_prompt demo_evaluator_prompt "theme" 5 (range 2 (5 + 1))
    busy_state busy_world.

Definition busy_final_state : LoopState :=
  match busy_rest.1 with
  | inr st => st
  | inl _ => demo_state
  end.

(** Verdicts whose counts the schema accepts and the prompts cannot print:
    a count of 4301 digits, and a negative count next to a large one. *)
Definition huge_verdict : FactCheckResultOutput :=
  FactCheckResultOutput.mk
    (FactCheckResultOutput.verified_evidences demo_verdict)
    (FactCheckResultOutput.removed_evidences demo_verdict)
    (FactCheckResultOutput.verified_findings demo_verdict)
    (FactCheckResultOutput.removed_findings demo_verdict)
    "one of two kept" int_str_bound 1 (1 # 2).

Definition negative_verdict : FactCheckResultOutput :=
  FactCheckResultOutput.mk
    (FactCheckResultOutput.verified_evidences demo_verdict)
    (FactCheckResultOutput.removed_evidences demo_verdict)
    (FactCheckResultOutput.verified_findings demo_verdict)
    (FactCheckResultOutput.removed_findings demo_verdict)
    "one of two kept" (- 2 ^ 1100) (2 ^ 1100) (1 # 2).

Definition huge_count_script : Script :=
  mkScript (fun _ => inr sample_plan) (fun _ => inr demo_result)
           (fun _ => inr huge_verdict)
           (fun _ => inr (sample_evaluation false)).

Definition negative_count_script : Script :=
  mkScript (fun _ => inr sample_plan) (fun _ => inr demo_result)
           (fun _ => inr negative_verdict)
           (fun _ => inr (sample_evaluation false)).

(** * Properties *)

(** ** Texts and their first characters *)

Section Texts.

Lemma str_prefix_char (n : nat) (c : N) (s : string) :
  str_prefix (Datatypes.S n) (utf8_char c +:+ s) = utf8_char c +:+ str_prefix n s.
Proof.
  unfold utf8_char.
  destruct (c <? 0x80)%N; [reflexivity|].
  destruct (c <? 0x800)%N; [reflexivity|].
  destruct (c <? 0x10000)%N; reflexivity.
Qed.

Lemma str_prefix_zero (text : list N) : str_prefix 0 (utf8 text) = "".
Proof.
  destruct text as [|c rest]; [reflexivity|]. simpl. unfold utf8_char.
  destruct (c <? 0x80)%N; [reflexivity|].
  destruct (c <? 0x800)%N; [reflexivity|].
  destruct (c <? 0x10000)%N; reflexivity.
Qed.

(** Slicing the encoding of a text gives the encoding of its first [n]
    characters. *)
Lemma str_prefix_utf8 (n : nat) (text : list N) :
  str_prefix n (utf8 text) = utf8 (take n text).
Proof.
  revert n. induction text as [|c rest IH]; intros n.
  - now destruct n.
  - destruct n as [|n]; [apply str_prefix_zero|].
    simpl utf8. rewrite str_prefix_char, IH. reflexivity.
Qed.

Lemma testbit_above (c bound w i : N) :
  (bound = 2 ^ w -> c < bound -> w <= i -> N.testbit c i = false)%N.
Proof.
  intros -> Hc Hi. destruct (N.eq_dec c 0%N) as [->|Hpos]; [apply N.bits_0|].
  apply N.bits_above_log2.
  assert (N.log2 c < w)%N by (apply N.log2_lt_pow2; lia). lia.
Qed.

Lemma utf8_char_inj (c c' : N) (s s' : string) :
  code_point c -> code_point c' ->
  utf8_char c +:+ s = utf8_char c' +:+ s' -> c = c' /\ s = s'.
Proof.
  unfold code_point, utf8_char. intros Hc Hc'.
  destruct (N.ltb_spec c 0x80); [|destruct (N.ltb_spec c 0x800);
                                   [|destruct (N.ltb_spec c 0x10000)]];
    (destruct (N.ltb_spec c' 0x80); [|destruct (N.ltb_spec c' 0x800);
                                        [|destruct (N.ltb_spec c' 0x10000)]]);
    cbv [String.app continuation_byte N.add Pos.add Pos.succ];
    intros Heq; try discriminate;
    inversion Heq; (split; [|reflexivity]);
    apply N.bits_inj; intros i;
    (destruct (N.lt_ge_cases i 21%N) as [Hi|Hi];
     [|rewrite (testbit_above c _ 21%N i eq_refl),
               (testbit_above c' _ 21%N i eq_refl) by lia; reflexivity]);
    assert (Hcases : (i = 0 \/ i = 1 \/ i = 2 \/ i = 3 \/ i = 4 \/ i = 5
                      \/ i = 6 \/ i = 7 \/ i = 8 \/ i = 9 \/ i = 10 \/ i = 11
                      \/ i = 12 \/ i = 13 \/ i = 14 \/ i = 15 \/ i = 16
                      \/ i = 17 \/ i = 18 \/ i = 19 \/ i = 20)%N) by lia;
    repeat (destruct Hcases as [->|Hcases]); try subst i;
    first
      [ assumption
      | rewrite (testbit_above c _ 7%N _ eq_refl),
                (testbit_above c' _ 7%N _ eq_refl) by lia; reflexivity
      | rewrite (testbit_above c _ 11%N _ eq_refl),
                (testbit_above c' _ 11%N _ eq_refl) by lia; reflexivity
      | rewrite (testbit_above c _ 16%N _ eq_refl),
                (testbit_above c' _ 16%N _ eq_refl) by lia; reflexivity ].
Qed.

Lemma utf8_char_not_empty (c : N) (s : string) : utf8_char c +:+ s <> "".
Proof.
  unfold utf8_char.
  destruct (c <? 0x80)%N; [discriminate|].
  destruct (c <? 0x800)%N; [discriminate|].
  destruct (c <? 0x10000)%N; discriminate.
Qed.

(** Two texts with the same encoding are the same text. *)
Lemma utf8_inj (text text' : list N) :
  Forall code_point text -> Forall code_point text' ->
  utf8 text = utf8 text' -> text = text'.
Proof.
  intros Hvalid. revert text'.
  induction Hvalid as [|c rest Hc _ IH]; intros text' Hvalid' Heq.
  - destruct text' as [|c' rest']; [reflexivity|].
    symmetry in Heq. now apply utf8_char_not_empty in Heq.
  - destruct Hvalid' as [|c' rest' Hc' Hrest'].
    + now apply utf8_char_not_empty in Heq.
    + simpl in Heq. apply utf8_char_inj in Heq as [-> Heq]; [|assumption..].
      f_equal. now apply IH.
Qed.

(** The key of a finding is the text of the first 80 characters of its
    content. *)
Lemma content_key_utf8 (f : Finding) (text : list N) :
  Finding.content f = utf8 text -> content_key f = utf8 (take 80 text).
Proof. intros H. unfold content_key. rewrite H. apply str_prefix_utf8. Qed.

(** Two findings have the same key exactly when their contents agree on
    their first 80 characters. *)
Lemma same_key_iff (f g : Finding) (text text' : list N) :
  Forall code_point text -> Forall code_point text' ->
  Finding.content f = utf8 text -> Finding.content g = utf8 text' ->
  content_key f = content_key g <-> take 80 text = take 80 text'.
Proof.
  intros Hv Hv' Hf Hg.
  rewrite (content_key_utf8 f text Hf), (content_key_utf8 g text' Hg).
  split; [|now intros ->].
  apply utf8_inj; now apply Forall_take.
Qed.

(** The first [n] characters of each content of a list, read as texts. *)
Lemma prefixes_utf8 {A} (content : A -> string) (n : nat) (l : list A)
    (texts : list (list N)) :
  content <$> l = utf8 <$> texts ->
  (fun a => str_prefix n (content a)) <$> l = utf8 <$> (take n <$> texts).
Proof.
  revert texts. induction l as [|a l IH]; intros [|text texts] H;
    try discriminate; [reflexivity|].
  rewrite !fmap_cons in H. injection H as Ha Hl.
  rewrite !fmap_cons, Ha, str_prefix_utf8. f_equal. now apply IH.
Qed.

Lemma keys_utf8 (l : list Finding) (texts : list (list N)) :
  Finding.content <$> l = utf8 <$> texts ->
  content_key <$> l = utf8 <$> (take 80 <$> texts).
Proof. apply (prefixes_utf8 Finding.content 80). Qed.

Lemma utf8_elem_of (text : list N) (texts : list (list N)) :
  Forall code_point text -> Forall (Forall code_point) texts ->
  utf8 text ∈ utf8 <$> texts <-> text ∈ texts.
Proof.
  intros Hv Hvs. split; [|apply list_elem_of_fmap_2].
  intros (text' & Heq & Hin)%list_elem_of_fmap.
  assert (Hv' : Forall code_point text').
  { exact (proj1 (Forall_forall _ _) Hvs text' Hin). }
  apply utf8_inj in Heq as ->; assumption.
Qed.

(** Whether the key of a finding is among the keys of a list of contents is
    a comparison of first 80 characters. *)
Lemma key_elem_of_utf8 {A} (content : A -> string) (f : Finding)
    (text : list N) (l : list A) (texts : list (list N)) :
  Forall code_point text -> Forall (Forall code_point) texts ->
  Finding.content f = utf8 text -> content <$> l = utf8 <$> texts ->
  content_key f ∈ (fun a => str_prefix 80 (content a)) <$> l
  <-> take 80 text ∈ take 80 <$> texts.
Proof.
  intros Hv Hvs Hf Hl.
  rewrite (content_key_utf8 f text Hf), (prefixes_utf8 content 80 l texts Hl).
  apply utf8_elem_of; [now apply Forall_take|].
  apply Forall_fmap, Forall_forall. intros t Ht. simpl.
  apply Forall_take. exact (proj1 (Forall_forall _ _) Hvs t Ht).
Qed.

Lemma key_in_pool_utf8 (f : Finding) (text : list N) (pool : list Finding)
    (texts : list (list N)) :
  Forall code_point text -> Forall (Forall code_point) texts ->
  Finding.content f = utf8 text -> Finding.content <$> pool = utf8 <$> texts ->
  content_key f ∈ content_key <$> pool <-> take 80 text ∈ take 80 <$> texts.
Proof. apply (key_elem_of_utf8 Finding.content). Qed.

Lemma key_in_verified_utf8 (f : Finding) (text : list N)
    (fc : FactCheckResultOutput) (texts : list (list N)) :
  Forall code_point text -> Forall (Forall code_point) texts ->
  Finding.content f = utf8 text ->
  VerifiedFinding.content <$> FactCheckResultOutput.verified_findings fc
  = utf8 <$> texts ->
  content_key f ∈ verified_contents fc <-> take 80 text ∈ take 80 <$> texts.
Proof.
  intros Hv Hvs Hf Hl. unfold verified_contents.
  rewrite elem_of_list_to_set.
  now apply (key_elem_of_utf8 VerifiedFinding.content).
Qed.

(** Distinct keys are distinct first 80 characters. *)
Lemma keys_NoDup_utf8 (pool : list Finding) (texts : list (list N)) :
  Finding.content <$> pool = utf8 <$> texts ->
  NoDup (content_key <$> pool) -> NoDup (take 80 <$> texts).
Proof.
  intros Hl. rewrite (keys_utf8 pool texts Hl). apply NoDup_fmap_1.
Qed.

End Texts.

(** ** Numbers that convert to text *)

Section Numbers.

Lemma int_str_bound_large : 1000 < int_str_bound.
Proof. vm_compute. reflexivity. Qed.

Lemma str_of_int_printable (z : Z) :
  printable z -> str_of_int z = inr (pretty z).
Proof. intros H. unfold str_of_int. now destruct (decide (printable z)). Qed.

Lemma str_of_int_unprintable (z : Z) :
  ~ printable z -> str_of_int z = inl int_str_limit_error.
Proof. intros H. unfold str_of_int. now destruct (decide (printable z)). Qed.

Lemma format_ints_printable (numbers : list Z) :
  Forall printable numbers -> format_ints numbers = inr tt.
Proof.
  induction 1 as [|z rest Hz _ IH]; [reflexivity|].
  simpl. now rewrite (str_of_int_printable z Hz).
Qed.

Lemma format_ints_inr (numbers : list Z) u :
  format_ints numbers = inr u -> Forall printable numbers.
Proof.
  induction numbers as [|z rest IH]; [constructor|].
  simpl. unfold str_of_int. destruct (decide (printable z)); [|discriminate].
  intros H. constructor; [assumption|now apply IH].
Qed.

Lemma format_ints_unprintable (numbers : list Z) :
  Exists (fun z => ~ printable z) numbers ->
  format_ints numbers = inl int_str_limit_error.
Proof.
  induction 1 as [z rest Hz|z rest _ IH]; simpl.
  - now rewrite (str_of_int_unprintable z Hz).
  - unfold str_of_int. now destruct (decide (printable z)).
Qed.

Lemma format_ints_app (numbers more : list Z) :
  format_ints (numbers ++ more)
  = and_then (format_ints numbers) (fun _ => format_ints more).
Proof.
  induction numbers as [|z rest IH]; [reflexivity|].
  simpl. now destruct (str_of_int z).
Qed.

Lemma printable_between (z k : Z) :
  0 <= z -> z <= k -> k < int_str_bound -> printable z.
Proof. unfold printable. lia. Qed.

Lemma printable_small (z : Z) : 0 <= z <= 1000 -> printable z.
Proof. pose proof int_str_bound_large. unfold printable. lia. Qed.

(** When both counters convert, the prompt of an attempt is its text. *)
Lemma current_prompt_ok (prompt : string) (k a : Z) :
  0 <= a -> a <= k -> k < int_str_bound ->
  current_prompt prompt k a = inr (attempt_prompt prompt k a).
Proof.
  intros Ha Hak Hk. unfold current_prompt, attempt_prompt.
  destruct (decide (a = 0)); [reflexivity|].
  rewrite format_ints_printable; [reflexivity|].
  repeat constructor; apply (printable_between _ k); lia.
Qed.

Lemma current_prompt_first (prompt : string) (k : Z) :
  current_prompt prompt k 0 = inr prompt.
Proof. reflexivity. Qed.








(** What building the evaluator's prompt can raise. *)
Lemma format_ints_inl (numbers : list Z) e :
  format_ints numbers = inl e -> e = int_str_limit_error.
Proof.
  induction numbers as [|z rest IH]; [discriminate|].
  simpl. unfold str_of_int. destruct (decide (printable z)); [exact IH|].
  now intros [= <-].
Qed.

Lemma true_div_inl (a b : Z) e :
  true_div a b = inl e -> e = int_division_error.
Proof.
  unfold true_div.
  destruct (decide (float_overflow_bound * b <= Z.abs a)); [|discriminate].
  now intros [= <-].
Qed.

Lemma fact_check_section_inl (history : list FactCheckEntry) e :
  fact_check_section history = inl e ->
  e = int_str_limit_error \/ e = int_division_error.
Proof.
  unfold fact_check_section.
  destruct (last history) as [latest_fc|]; [|discriminate]. cbv zeta.
  destruct (format_ints [FactCheckEntry.verified latest_fc;
                         FactCheckEntry.removed latest_fc])
    as [e1|[]] eqn:Hcounts; cbn [and_then].
  { intros [= <-]. left. exact (format_ints_inl _ _ Hcounts). }
  destruct (decide (FactCheckEntry.removed latest_fc > 0)).
  - destruct (true_div _ _) as [e2|[]] eqn:Hdiv; cbn [and_then].
    { intros [= <-]. right. exact (true_div_inl _ _ _ Hdiv). }
    destruct (format_ints [FactCheckEntry.removed latest_fc])
      as [e3|[]] eqn:Hagain; cbn [and_then].
    { intros [= <-]. left. exact (format_ints_inl _ _ Hagain). }
    destruct (decide (1 < length history)%nat); [|discriminate].
    intros Hlines. left. exact (format_ints_inl _ _ Hlines).
  - cbn [and_then].
    destruct (decide (1 < length history)%nat); [|discriminate].
    intros Hlines. left. exact (format_ints_inl _ _ Hlines).
Qed.

Lemma evaluator_numbers_inl (evaluations : list EvaluationOutput)
    (history : list FactCheckEntry) (iteration max_iterations : Z) e :
  evaluator_prompt_numbers evaluations history iteration max_iterations
  = inl e ->
  e = int_str_limit_error \/ e = int_division_error.
Proof.
  unfold evaluator_prompt_numbers.
  destruct (format_ints (concat (past_eval_numbers <$> evaluations)))
    as [e1|[]] eqn:Hpast; cbn [and_then].
  { intros [= <-]. left. exact (format_ints_inl _ _ Hpast). }
  destruct (fact_check_section history) as [e2|[]] eqn:Hsection;
    cbn [and_then].
  { intros [= <-]. exact (fact_check_section_inl _ _ Hsection). }
  intros Hlast. left. exact (format_ints_inl _ _ Hlast).
Qed.

(** The last line of the evaluator's prompt formats [max_iterations]. *)
Lemma evaluator_numbers_beyond_limit (evaluations : list EvaluationOutput)
    (history : list FactCheckEntry) (iteration max_iterations : Z) :
  ~ printable max_iterations ->
  exists e,
    evaluator_prompt_numbers evaluations history iteration max_iterations
    = inl e.
Proof.
  intros Hmax.
  destruct (evaluator_prompt_numbers evaluations history iteration
              max_iterations) as [e|[]] eqn:Hnumbers; [now exists e|].
  exfalso. unfold evaluator_prompt_numbers in Hnumbers.
  destruct (format_ints (concat (past_eval_numbers <$> evaluations)))
    as [e1|[]]; [discriminate|]. cbn [and_then] in Hnumbers.
  destruct (fact_check_section history) as [e2|[]]; [discriminate|].
  cbn [and_then] in Hnumbers. apply format_ints_inr in Hnumbers.
  apply Forall_cons in Hnumbers as [_ Hrest].
  now apply Forall_inv in Hrest.
Qed.

(** The fact-check section formats the counts of the latest entry. *)
Lemma evaluator_numbers_unprintable_count (evaluations : list EvaluationOutput)
    (history : list FactCheckEntry) latest_fc (iteration max_iterations : Z) :
  last history = Some latest_fc ->
  ~ printable (FactCheckEntry.verified latest_fc)
  \/ ~ printable (FactCheckEntry.removed latest_fc) ->
  evaluator_prompt_numbers evaluations history iteration max_iterations
  = inl int_str_limit_error.
Proof.
  intros Hlast Hcounts. unfold evaluator_prompt_numbers.
  destruct (format_ints (concat (past_eval_numbers <$> evaluations)))
    as [e1|[]] eqn:Hpast; cbn [and_then].
  { now rewrite (format_ints_inl _ _ Hpast). }
  unfold fact_check_section. rewrite Hlast. cbv zeta.
  rewrite format_ints_unprintable; [reflexivity|].
  destruct Hcounts as [Hv|Hr]; [now left|right; now left].
Qed.

End Numbers.

(** ** The retrying call wrapper *)

Section RetryProperties.

Context {Svc : Type}.
Variable runner : forall a : AgentName, string -> Svc -> (exn + output_type a) * Svc.

Lemma Runner_run_eq agent prompt (w : World) r s' :
  runner agent prompt (service w) = (r, s') ->
  Runner_run runner agent prompt w
  = (r, mkWorld s' (calls w ++ [mkCall agent prompt r])).
Proof. intros H. unfold Runner_run. now rewrite H. Qed.

Lemma range_cons (start stop : Z) :
  start < stop -> range start stop = start :: range (start + 1) stop.
Proof.
  intros H. unfold range.
  rewrite (seqZ_cons start (stop - start)) by lia.
  f_equal. f_equal; lia.
Qed.

Lemma range_length (start stop : Z) :
  length (range start stop) = Z.to_nat (stop - start).
Proof. unfold range. apply length_seqZ. Qed.

Lemma range_bounds (start stop i : Z) :
  i ∈ range start stop <-> start <= i < stop.
Proof. unfold range. rewrite elem_of_seqZ. lia. Qed.



(** C5.  If the first call raises an exception that is not
    [ModelBehaviorError], [_run_with_retry] makes that one call, with the
    prompt verbatim, and raises the same exception. *)
Theorem run_with_retry_passthrough agent prompt (k : Z) (w : World) e s' :
  0 <= k ->
  runner agent prompt (service w) = (inl e, s') ->
  is_ModelBehaviorError e = false ->
  _run_with_retry runner agent prompt k w
  = (inl e, mkWorld s' (calls w ++ [mkCall agent prompt (inl e)])).
Proof.
  intros Hk Hrun He. unfold _run_with_retry.
  rewrite range_cons by lia. simpl.
  rewrite (Runner_run_eq _ _ _ _ _ Hrun).
  destruct e; [discriminate|reflexivity..].
Qed.


End RetryProperties.

(** ** Accumulation into the pools *)

Section PoolProperties.

Lemma str_truthy_spec (s : string) : str_truthy s = true <-> s <> "".
Proof. destruct s; simpl; split; intros; congruence. Qed.

Lemma existing_contents_elem (accepted : list Finding) (key : string) :
  key ∈ existing_contents accepted <-> key ∈ content_key <$> accepted.
Proof. unfold existing_contents. apply elem_of_list_to_set. Qed.

Lemma existing_contents_snoc (accepted : list Finding) (f : Finding) :
  existing_contents (accepted ++ [f])
  = existing_contents accepted ∪ {[content_key f]}.
Proof.
  unfold existing_contents. rewrite fmap_app, list_to_set_app_L. simpl.
  now rewrite union_empty_r_L.
Qed.

Lemma existing_urls_elem (accepted : list Evidence) (u : string) :
  u ∈ existing_urls accepted <-> u ∈ Evidence.url <$> accepted.
Proof. unfold existing_urls. apply elem_of_list_to_set. Qed.

Lemma existing_urls_snoc (accepted : list Evidence) (e : Evidence) :
  existing_urls (accepted ++ [e])
  = existing_urls accepted ∪ {[Evidence.url e]}.
Proof.
  unfold existing_urls. rewrite fmap_app, list_to_set_app_L. simpl.
  now rewrite union_empty_r_L.
Qed.

(** One merge step, started from a pool and the key set computed from it:
    the pool is extended exactly when the key is new, and the key set stays
    the key set of the pool. *)
Lemma merge_finding_step (accepted : list Finding) (f : Finding) :
  merge_finding (accepted, existing_contents accepted) f
  = if decide (content_key f ∈ content_key <$> accepted)
    then (accepted, existing_contents accepted)
    else (accepted ++ [f], existing_contents (accepted ++ [f])).
Proof.
  unfold merge_finding. simpl.
  destruct (decide (content_key f ∈ existing_contents accepted)) as [Hin|Hout];
    destruct (decide (content_key f ∈ content_key <$> accepted)) as [Hin'|Hout'].
  - reflexivity.
  - exfalso. now apply Hout', existing_contents_elem.
  - exfalso. now apply Hout, existing_contents_elem.
  - now rewrite existing_contents_snoc.
Qed.

Lemma merge_evidence_step (accepted : list Evidence) (e : Evidence) :
  merge_evidence (accepted, existing_urls accepted) e
  = if decide (Evidence.url e = "") then (accepted, existing_urls accepted)
    else if decide (Evidence.url e ∈ Evidence.url <$> accepted)
    then (accepted, existing_urls accepted)
    else (accepted ++ [e], existing_urls (accepted ++ [e])).
Proof.
  unfold merge_evidence. simpl.
  destruct (decide (Evidence.url e = "")) as [Hempty|Hfull].
  - rewrite Hempty. reflexivity.
  - apply str_truthy_spec in Hfull. rewrite Hfull. simpl.
    destruct (decide (Evidence.url e ∈ Evidence.url <$> accepted)) as [Hin|Hout].
    + rewrite bool_decide_eq_false_2; [reflexivity|].
      intros Hno. now apply Hno, existing_urls_elem.
    + rewrite bool_decide_eq_true_2.
      * now rewrite existing_urls_snoc.
      * intros Hyes. now apply Hout, existing_urls_elem.
Qed.

(** The whole merge loop appends to the pool a subsequence of the
    candidates, and never touches what the pool already holds. *)
Lemma foldl_merge_finding (new accepted : list Finding) :
  exists added,
    foldl merge_finding (accepted, existing_contents accepted) new
    = (accepted ++ added, existing_contents (accepted ++ added))
    /\ sublist added new.
Proof.
  revert accepted. induction new as [|f new IH]; intros accepted.
  - exists []. rewrite app_nil_r. split; [reflexivity|constructor].
  - simpl. rewrite merge_finding_step.
    destruct (decide (content_key f ∈ content_key <$> accepted)).
    + destruct (IH accepted) as (added & Heq & Hsub).
      exists added. split; [exact Heq|]. now apply sublist_cons.
    + destruct (IH (accepted ++ [f])) as (added & Heq & Hsub).
      exists (f :: added). rewrite Heq, <- app_assoc.
      split; [reflexivity|]. now apply sublist_skip.
Qed.

Lemma foldl_merge_evidence (new accepted : list Evidence) :
  exists added,
    foldl merge_evidence (accepted, existing_urls accepted) new
    = (accepted ++ added, existing_urls (accepted ++ added))
    /\ sublist added new
    /\ Forall (fun e => Evidence.url e <> "") added.
Proof.
  revert accepted. induction new as [|e new IH]; intros accepted.
  - exists []. rewrite app_nil_r. repeat split; constructor.
  - simpl. rewrite merge_evidence_step.
    destruct (decide (Evidence.url e = "")) as [Hempty|Hfull];
      [|destruct (decide (Evidence.url e ∈ Evidence.url <$> accepted))].
    + destruct (IH accepted) as (added & Heq & Hsub & Hne).
      exists added. repeat split; [exact Heq| now apply sublist_cons | exact Hne].
    + destruct (IH accepted) as (added & Heq & Hsub & Hne).
      exists added. repeat split; [exact Heq| now apply sublist_cons | exact Hne].
    + destruct (IH (accepted ++ [e])) as (added & Heq & Hsub & Hne).
      exists (e :: added). rewrite Heq, <- app_assoc.
      repeat split; [now apply sublist_skip | now constructor].
Qed.

Lemma accumulate_findings_app (accepted new : list Finding) :
  exists added,
    accumulate_findings accepted new = accepted ++ added
    /\ sublist added new.
Proof.
  destruct (foldl_merge_finding new accepted) as (added & Heq & Hsub).
  exists added. unfold accumulate_findings. now rewrite Heq.
Qed.

Lemma accumulate_evidence_app (accepted new : list Evidence) :
  exists added,
    accumulate_evidence accepted new = accepted ++ added
    /\ sublist added new
    /\ Forall (fun e => Evidence.url e <> "") added.
Proof.
  destruct (foldl_merge_evidence new accepted) as (added & Heq & Hsub & Hne).
  exists added. unfold accumulate_evidence. now rewrite Heq.
Qed.

(** C7.  Merging one finding into the pool: if its 80-character key is the
    key of a pool element the pool, hence its size, is unchanged; otherwise
    the finding is appended at the end and the size grows by exactly one.
    In both cases the key set carried along is again the key set of the
    pool, so every later merge behaves the same way.  The key is the first
    80 characters: when the contents are the texts [text] and [texts], the
    key of the finding is a key of the pool exactly when the first 80
    characters of [text] are the first 80 characters of one of [texts]. *)
Theorem accumulate_findings_dedup (accepted : list Finding) (f : Finding) :
  let pool := accumulate_findings accepted [f] in
  (if decide (content_key f ∈ content_key <$> accepted)
   then pool = accepted /\ length pool = length accepted
   else pool = accepted ++ [f] /\ length pool = Datatypes.S (length accepted))
  /\ merge_finding (accepted, existing_contents accepted) f
     = (pool, existing_contents pool)
  /\ forall text texts,
       Forall code_point text -> Forall (Forall code_point) texts ->
       Finding.content f = utf8 text ->
       Finding.content <$> accepted = utf8 <$> texts ->
       content_key f = utf8 (take 80 text)
       /\ (content_key f ∈ content_key <$> accepted
           <-> take 80 text ∈ take 80 <$> texts).
Proof.
  unfold accumulate_findings. simpl. rewrite merge_finding_step.
  split; [|split].
  - destruct (decide (content_key f ∈ content_key <$> accepted)); simpl.
    + repeat split.
    + repeat split. rewrite length_app. simpl. lia.
  - now destruct (decide (content_key f ∈ content_key <$> accepted)).
  - intros text texts Hv Hvs Hf Hl.
    split; [now apply content_key_utf8|now apply key_in_pool_utf8].
Qed.

(** C8.  Merging one evidence into the pool: an empty url is never added;
    a url equal to the url of a pool element leaves the pool unchanged; a
    new non-empty url is appended at the end and the size grows by exactly
    one.  Whatever the candidates, nothing with an empty url enters. *)
Theorem accumulate_evidence_dedup (accepted : list Evidence) (e : Evidence) :
  let pool := accumulate_evidence accepted [e] in
  (if decide (Evidence.url e = "") then pool = accepted
   else if decide (Evidence.url e ∈ Evidence.url <$> accepted)
   then pool = accepted
   else pool = accepted ++ [e]
        /\ length pool = Datatypes.S (length accepted))
  /\ merge_evidence (accepted, existing_urls accepted) e
     = (pool, existing_urls pool)
  /\ forall candidates, exists added,
       accumulate_evidence accepted candidates = accepted ++ added
       /\ Forall (fun x => Evidence.url x <> "") added.
Proof.
  assert (Hone : accumulate_evidence accepted [e]
                 = (merge_evidence (accepted, existing_urls accepted) e).1)
    by reflexivity.
  intros pool. subst pool. rewrite Hone, merge_evidence_step.
  split; [|split].
  - destruct (decide (Evidence.url e = ""));
      [|destruct (decide (Evidence.url e ∈ Evidence.url <$> accepted))];
      simpl; try reflexivity.
    split; [reflexivity|]. rewrite length_app. simpl. lia.
  - destruct (decide (Evidence.url e = ""));
      [|destruct (decide (Evidence.url e ∈ Evidence.url <$> accepted))];
      reflexivity.
  - intros candidates.
    destruct (accumulate_evidence_app accepted candidates)
      as (added & Heq & _ & Hne).
    now exists added.
Qed.

End PoolProperties.

(** ** One iteration: fact-check gate, history entry and accepted items *)

Section IterationProperties.

Context {Svc : Type}.
Variable runner : forall a : AgentName, string -> Svc -> (exn + output_type a) * Svc.
Variable fact_check_prompt : ResearchResultOutput -> string.
Variable evaluator_prompt :
  string -> SearchPlanOutput -> ResearchResultOutput -> list FactCheckEntry ->
  list EvaluationOutput -> Z -> Z -> string.

Lemma sublist_member {A} (l1 l2 : list A) (x : A) :
  sublist l1 l2 -> x ∈ l1 -> x ∈ l2.
Proof.
  induction 1 as [|y l1 l2 _ IH|y l1 l2 _ IH]; intros Hx.
  - exact Hx.
  - apply elem_of_cons in Hx as [->|Hx]; [left|right; auto].
  - right; auto.
Qed.

(** Whatever its outcome, [_run_with_retry] only appends calls to its own
    agent to the log, and a value it returns is the outcome of the last of
    them. *)
Lemma retry_attempts_log agent prompt max_retries attempts :
  forall last_error (w : World) res w',
    retry_attempts runner agent prompt max_retries attempts last_error w
    = (res, w') ->
    exists new,
      calls w' = calls w ++ new
      /\ Forall (fun c => call_agent c = agent) new
      /\ match res with
         | inr out => exists p, last new = Some (mkCall agent p (inr out))
         | inl _ => True
         end.
Proof.
  induction attempts as [|attempt rest IH]; intros last_error w res w' Hrun.
  - exists []. rewrite app_nil_r.
    destruct last_error; simpl in Hrun; unfold raise in Hrun;
      inversion Hrun; subst; auto.
  - simpl in Hrun.
    destruct (current_prompt prompt max_retries attempt) as [e|current].
    { inversion Hrun; subst. exists []. rewrite app_nil_r. auto. }
    unfold Runner_run in Hrun.
    destruct (runner agent current (service w)) as [r s1].
    destruct r as [e|out].
    + destruct e as [msg|msg|msg|msg|msg].
      * apply IH in Hrun as (new & Hcalls & Hagents & Hres). simpl in Hcalls.
        eexists (_ :: new). rewrite Hcalls, <- app_assoc.
        split; [reflexivity|]. split; [constructor; [reflexivity|exact Hagents]|].
        destruct res as [|out]; [exact I|].
        destruct Hres as (p & Hlast). exists p.
        destruct new; [discriminate|exact Hlast].
      * inversion Hrun; subst. simpl. eexists [_].
        split; [reflexivity|]. split; [|exact I]. now repeat constructor.
      * inversion Hrun; subst. simpl. eexists [_].
        split; [reflexivity|]. split; [|exact I]. now repeat constructor.
      * inversion Hrun; subst. simpl. eexists [_].
        split; [reflexivity|]. split; [|exact I]. now repeat constructor.
      * inversion Hrun; subst. simpl. eexists [_].
        split; [reflexivity|]. split; [|exact I]. now repeat constructor.
    + inversion Hrun; subst. simpl. eexists [_].
      split; [reflexivity|]. split; [now repeat constructor|].
      eexists. reflexivity.
Qed.

Lemma run_with_retry_log agent prompt max_retries (w : World) res w' :
  _run_with_retry runner agent prompt max_retries w = (res, w') ->
  exists new,
    calls w' = calls w ++ new
    /\ Forall (fun c => call_agent c = agent) new
    /\ match res with
       | inr out => exists p, last new = Some (mkCall agent p (inr out))
       | inl _ => True
       end.
Proof. apply retry_attempts_log. Qed.

Lemma calls_to_app_other (a a' : AgentName) (log new : list Call) :
  a <> a' ->
  Forall (fun c => call_agent c = a') new ->
  calls_to a (log ++ new) = calls_to a log.
Proof.
  intros Hne Hall. unfold calls_to. rewrite filter_app.
  replace (filter (fun c => call_agent c = a) new) with (@nil Call).
  - apply app_nil_r.
  - symmetry. induction Hall as [|c new Hc _ IH]; [reflexivity|].
    rewrite filter_cons_False; [exact IH|congruence].
Qed.

(** What [record_fact_check] does to the pools: it appends, in order, some
    of the researcher's own items, all of them selected by the verdict. *)
Lemma record_fact_check_pools iteration r fact_check st :
  exists new_findings new_evidence,
    accepted_findings (record_fact_check iteration r fact_check st)
    = accepted_findings st ++ new_findings
    /\ accepted_evidence (record_fact_check iteration r fact_check st)
       = accepted_evidence st ++ new_evidence
    /\ sublist new_findings (ResearchResultOutput.findings r)
    /\ sublist new_evidence (ResearchResultOutput.evidence r)
    /\ Forall (fun e => Evidence.url e <> "") new_evidence
    /\ match fact_check with
       | Some fc =>
           Forall (fun f => content_key f ∈ verified_contents fc) new_findings
           /\ Forall (fun e => Evidence.url e ∈ verified_urls fc) new_evidence
       | None => new_findings = [] /\ new_evidence = []
       end.
Proof.
  destruct fact_check as [fc|]; simpl.
  - destruct (accumulate_findings_app (accepted_findings st)
                (iteration_accepted_findings r fc)) as (nf & Hf & Hsf).
    destruct (accumulate_evidence_app (accepted_evidence st)
                (iteration_accepted_evidence r fc)) as (ne & He & Hse & Hne).
    exists nf, ne. rewrite Hf, He.
    split; [reflexivity|]. split; [reflexivity|].
    split; [etrans; [exact Hsf|apply sublist_filter]|].
    split; [etrans; [exact Hse|apply sublist_filter]|].
    split; [exact Hne|].
    split; apply Forall_forall; intros x Hx.
    + apply (sublist_member _ _ _ Hsf) in Hx.
      unfold iteration_accepted_findings in Hx.
      now apply list_elem_of_filter in Hx as [Hx _].
    + apply (sublist_member _ _ _ Hse) in Hx.
      unfold iteration_accepted_evidence in Hx.
      now apply list_elem_of_filter in Hx as [Hx _].
  - exists [], []. rewrite !app_nil_r.
    repeat split; try apply sublist_nil_l; constructor.
Qed.

(** The shape of a successful iteration: the fact-check step returned, the
    evaluator returned, and the new state is the recorded state with the
    evaluation appended and possibly a new plan. *)
Lemma after_research_inv theme max_iterations iteration r st (w : World)
    st' stop w' :
  after_research runner fact_check_prompt evaluator_prompt theme
    max_iterations iteration r st w = (inr (st', stop), w') ->
  exists fact_check w1 evaluation,
    let st1 :=
      mkLoopState (current_plan st) (evaluations st) (Some r)
        (raw_results st ++ [raw_result_of iteration r])
        (accepted_findings st) (accepted_evidence st)
        (fact_check_history st) in
    let st2 := record_fact_check iteration r fact_check st1 in
    fact_check_step runner fact_check_prompt r w = (inr fact_check, w1)
    /\ _run_with_retry runner Evaluator
         (evaluator_prompt theme (current_plan st2) r (fact_check_history st2)
            (evaluations st2) iteration max_iterations)
         MAX_PARSE_RETRIES w1
       = (inr evaluation, w')
    /\ stop = negb (EvaluationOutput.should_refine evaluation)
              || bool_decide (iteration >= max_iterations)
    /\ evaluations st'
       = evaluations st
         ++ [EvaluationOutput.set_iteration_number iteration evaluation]
    /\ current_result st' = Some r
    /\ raw_results st' = raw_results st ++ [raw_result_of iteration r]
    /\ accepted_findings st' = accepted_findings st2
    /\ accepted_evidence st' = accepted_evidence st2
    /\ fact_check_history st' = fact_check_history st2.
Proof.
  unfold after_research, bind, lift. intros Hrun.
  destruct (fact_check_step runner fact_check_prompt r w)
    as [[e|fact_check] w1]; [discriminate|].
  match type of Hrun with
  | context [evaluator_prompt_numbers ?evs ?history ?i ?m] =>
      destruct (evaluator_prompt_numbers evs history i m)
        as [e|[]] eqn:Hnumbers; [discriminate|]
  end.
  match type of Hrun with
  | context [_run_with_retry runner Evaluator ?p ?k w1] =>
      destruct (_run_with_retry runner Evaluator p k w1)
        as [[e|evaluation] w2] eqn:Heval; [discriminate|]
  end.
  exists fact_check, w1, evaluation. cbv zeta.
  assert (w2 = w' /\ stop = negb (EvaluationOutput.should_refine evaluation)
                          || bool_decide (iteration >= max_iterations)
          /\ evaluations st'
             = evaluations st
               ++ [EvaluationOutput.set_iteration_number iteration evaluation]
          /\ current_result st' = Some r
          /\ raw_results st' = raw_results st ++ [raw_result_of iteration r]
          /\ accepted_findings st'
             = accepted_findings (record_fact_check iteration r fact_check
                 (mkLoopState (current_plan st) (evaluations st) (Some r)
                    (raw_results st ++ [raw_result_of iteration r])
                    (accepted_findings st) (accepted_evidence st)
                    (fact_check_history st)))
          /\ accepted_evidence st'
             = accepted_evidence (record_fact_check iteration r fact_check
                 (mkLoopState (current_plan st) (evaluations st) (Some r)
                    (raw_results st ++ [raw_result_of iteration r])
                    (accepted_findings st) (accepted_evidence st)
                    (fact_check_history st)))
          /\ fact_check_history st'
             = fact_check_history (record_fact_check iteration r fact_check
                 (mkLoopState (current_plan st) (evaluations st) (Some r)
                    (raw_results st ++ [raw_result_of iteration r])
                    (accepted_findings st) (accepted_evidence st)
                    (fact_check_history st)))) as Hshape.
  { simpl in Hrun.
    destruct (negb (EvaluationOutput.should_refine evaluation)
              || bool_decide (iteration >= max_iterations)) eqn:Hstop.
    - unfold ret in Hrun. inversion Hrun; subst.
      destruct fact_check; simpl; repeat split.
    - destruct (EvaluationOutput.refined_plan evaluation);
        unfold ret in Hrun; inversion Hrun; subst;
        destruct fact_check; simpl; repeat split. }
  destruct Hshape as (-> & Hshape).
  split; [reflexivity|]. split; [exact Heval|]. exact Hshape.
Qed.

(** C9.  When the researcher returns no findings and no evidence, the
    fact-check step returns [None] without raising and without calling the
    service; the rest of the iteration makes no call to the fact checker
    either, and if it completes, the history has grown by the skipped entry:
    counts 0, reliability 0, no removal reasons, the skipped summary.  The
    pools are untouched. *)
Theorem fact_check_skipped_on_empty theme max_iterations iteration r st
    (w : World) res w' :
  ResearchResultOutput.findings r = [] ->
  ResearchResultOutput.evidence r = [] ->
  after_research runner fact_check_prompt evaluator_prompt theme
    max_iterations iteration r st w = (res, w') ->
  fact_check_step runner fact_check_prompt r w = (inr None, w)
  /\ calls_to FactChecker (calls w') = calls_to FactChecker (calls w)
  /\ match res with
     | inr (st', _) =>
         fact_check_history st'
         = fact_check_history st ++ [skipped_entry iteration]
         /\ accepted_findings st' = accepted_findings st
         /\ accepted_evidence st' = accepted_evidence st
     | inl _ => True
     end
  /\ skipped_entry iteration
     = FactCheckEntry.mk iteration 0 0 0%Q []
         "ファクトチェックをスキップ（evidence/findingsが空）".
Proof.
  intros Hf He Hrun.
  assert (Hstep : fact_check_step runner fact_check_prompt r w = (inr None, w)).
  { unfold fact_check_step. rewrite Hf, He. reflexivity. }
  split; [exact Hstep|]. split; [|split; [|reflexivity]].
  - unfold after_research, bind, lift in Hrun. rewrite Hstep in Hrun.
    match type of Hrun with
    | context [evaluator_prompt_numbers ?evs ?history ?i ?m] =>
        destruct (evaluator_prompt_numbers evs history i m) as [e|[]]
    end; [now inversion Hrun|].
    match type of Hrun with
    | context [_run_with_retry runner Evaluator ?p ?k w] =>
        destruct (_run_with_retry runner Evaluator p k w)
          as [res_e w2] eqn:Heval
    end.
    apply run_with_retry_log in Heval as (new & Hcalls & Hagents & _).
    assert (w' = w2) as ->.
    { destruct res_e as [e|evaluation]; [now inversion Hrun|].
      simpl in Hrun.
      destruct (negb (EvaluationOutput.should_refine evaluation)
                || bool_decide (iteration >= max_iterations));
        [|destruct (EvaluationOutput.refined_plan evaluation)];
        unfold ret in Hrun; now inversion Hrun. }
    rewrite Hcalls. now apply (calls_to_app_other FactChecker Evaluator).
  - destruct res as [e|[st' stop]]; [exact I|].
    apply after_research_inv in Hrun
      as (fact_check & w1 & evaluation & Hstep' & _ & _ & _ & _ & _
          & Hpf & Hpe & Hhist).
    rewrite Hstep in Hstep'. inversion Hstep'; subst fact_check w1.
    rewrite Hhist, Hpf, Hpe. simpl. repeat split.
Qed.

(** C3, as the code has it.  The history entry of an iteration stores what
    the fact checker reported: its [total_verified], its [total_removed] and
    its [reliability_score], the last copied unchanged and never recomputed
    from the counts; a validated verdict keeps it within [0, 1].  When the
    check was skipped the entry holds 0, 0 and 0, which is the ratio
    [verified / max(verified + removed, 1)]. *)
Theorem history_entry_copies_verdict theme max_iterations iteration r st
    (w : World) st' stop w' fact_check w1 :
  after_research runner fact_check_prompt evaluator_prompt theme
    max_iterations iteration r st w = (inr (st', stop), w') ->
  fact_check_step runner fact_check_prompt r w = (inr fact_check, w1) ->
  (forall fc, fact_check = Some fc -> FactCheckResultOutput.validated fc) ->
  exists entry,
    fact_check_history st' = fact_check_history st ++ [entry]
    /\ FactCheckEntry.iteration entry = iteration
    /\ (0 <= FactCheckEntry.reliability entry)%Q
    /\ (FactCheckEntry.reliability entry <= 1)%Q
    /\ match fact_check with
       | Some fc =>
           FactCheckEntry.verified entry
           = FactCheckResultOutput.total_verified fc
           /\ FactCheckEntry.removed entry
              = FactCheckResultOutput.total_removed fc
           /\ FactCheckEntry.reliability entry
              = FactCheckResultOutput.reliability_score fc
       | None =>
           FactCheckEntry.verified entry = 0
           /\ FactCheckEntry.removed entry = 0
           /\ (FactCheckEntry.reliability entry == verified_ratio 0 0)%Q
       end.
Proof.
  intros Hrun Hstep Hvalid.
  apply after_research_inv in Hrun
    as (fact_check' & w1' & evaluation & Hstep' & _ & _ & _ & _ & _
        & _ & _ & Hhist).
  rewrite Hstep in Hstep'. inversion Hstep'; subst fact_check' w1'.
  rewrite Hhist. destruct fact_check as [fc|]; simpl.
  - exists (checked_entry iteration fc).
    destruct (Hvalid fc eq_refl) as [Hlo Hhi]. simpl. repeat split; assumption.
  - exists (skipped_entry iteration). simpl. repeat split; try easy.
Qed.

(** C1.  In a completed iteration the pools grow by appending, in order,
    items of that iteration's researcher output [r] itself: findings whose
    80-character key is in the verdict's verified-key set and evidence whose
    url is in the verdict's verified-url set (nothing when the check was
    skipped).  Every accepted evidence has a non-empty url which is the url
    of an evidence of the raw record archived for this iteration.  The key
    is the first 80 characters: when the contents are the texts [text] and
    [texts], the key of a finding is in the verified-key set exactly when
    the first 80 characters of [text] are the first 80 characters of the
    content of a verified finding. *)
Theorem accepted_items_from_researcher theme max_iterations iteration r st
    (w : World) st' stop w' :
  after_research runner fact_check_prompt evaluator_prompt theme
    max_iterations iteration r st w = (inr (st', stop), w') ->
  exists fact_check w1 new_findings new_evidence,
    fact_check_step runner fact_check_prompt r w = (inr fact_check, w1)
    /\ accepted_findings st' = accepted_findings st ++ new_findings
    /\ accepted_evidence st' = accepted_evidence st ++ new_evidence
    /\ sublist new_findings (ResearchResultOutput.findings r)
    /\ sublist new_evidence (ResearchResultOutput.evidence r)
    /\ match fact_check with
       | Some fc =>
           Forall (fun f => content_key f ∈ verified_contents fc) new_findings
           /\ Forall (fun e => Evidence.url e ∈ verified_urls fc) new_evidence
       | None => new_findings = [] /\ new_evidence = []
       end
    /\ last (raw_results st') = Some (raw_result_of iteration r)
    /\ Forall (fun e =>
                 Evidence.url e <> ""
                 /\ Evidence.url e
                    ∈ RawResult.url
                        <$> RawResult.evidence (raw_result_of iteration r))
              new_evidence
    /\ forall fc f text texts,
         fact_check = Some fc ->
         Forall code_point text -> Forall (Forall code_point) texts ->
         Finding.content f = utf8 text ->
         VerifiedFinding.content <$> FactCheckResultOutput.verified_findings fc
         = utf8 <$> texts ->
         content_key f = utf8 (take 80 text)
         /\ (content_key f ∈ verified_contents fc
             <-> take 80 text ∈ take 80 <$> texts).
Proof.
  intros Hrun.
  apply after_research_inv in Hrun
    as (fact_check & w1 & evaluation & Hstep & _ & _ & _ & _ & Hraw
        & Hpf & Hpe & _).
  match type of Hpf with
  | _ = accepted_findings (record_fact_check _ _ _ ?st1) =>
      destruct (record_fact_check_pools iteration r fact_check st1)
        as (nf & ne & Hf & He & Hsf & Hse & Hnonempty & Hsel)
  end.
  exists fact_check, w1, nf, ne.
  split; [exact Hstep|]. split; [now rewrite Hpf, Hf|].
  split; [now rewrite Hpe, He|]. split; [exact Hsf|]. split; [exact Hse|].
  split; [exact Hsel|]. split; [rewrite Hraw; apply last_snoc|].
  split.
  - apply Forall_forall. intros e Hin. split.
    + revert e Hin. now apply Forall_forall.
    + apply (sublist_member _ _ _ Hse) in Hin. simpl.
      rewrite <- list_fmap_compose. now apply (list_elem_of_fmap_2 _ _ e).
  - intros fc f text texts _ Hv Hvs Htext Htexts.
    split; [now apply content_key_utf8|now apply key_in_verified_utf8].
Qed.

End IterationProperties.

(** ** The whole run *)

Section RunProperties.

Context {Svc : Type}.
Variable runner : forall a : AgentName, string -> Svc -> (exn + output_type a) * Svc.
Variable planner_prompt : string -> string.
Variable refinement_prompt : SearchPlanOutput -> string -> string.
Variable researcher_prompt :
  string -> Z -> SearchPlanOutput -> list Finding -> list Evidence ->
  list FactCheckEntry -> list EvaluationOutput -> string.
Variable fact_check_prompt : ResearchResultOutput -> string.
Variable evaluator_prompt :
  string -> SearchPlanOutput -> ResearchResultOutput -> list FactCheckEntry ->
  list EvaluationOutput -> Z -> Z -> string.

Lemma calls_to_app_same (a : AgentName) (log new : list Call) :
  Forall (fun c => call_agent c = a) new ->
  calls_to a (log ++ new) = calls_to a log ++ new.
Proof.
  intros Hall. unfold calls_to. rewrite filter_app. f_equal.
  induction Hall as [|c new Hc _ IH]; [reflexivity|].
  rewrite filter_cons_True by exact Hc. now rewrite IH.
Qed.

Lemma fact_check_step_log r (w : World) res w1 :
  fact_check_step runner fact_check_prompt r w = (res, w1) ->
  exists new,
    calls w1 = calls w ++ new
    /\ Forall (fun c => call_agent c = FactChecker) new.
Proof.
  unfold fact_check_step, bind. intros Hstep.
  destruct (negb (list_truthy (ResearchResultOutput.evidence r))
            && negb (list_truthy (ResearchResultOutput.findings r))).
  - inversion Hstep; subst. exists []. now rewrite app_nil_r.
  - destruct (_run_with_retry runner FactChecker (fact_check_prompt r)
                MAX_PARSE_RETRIES w) as [res_fc w2] eqn:Hfc.
    apply run_with_retry_log in Hfc as (new & Hcalls & Hagents & _).
    exists new. split; [|exact Hagents].
    destruct res_fc; inversion Hstep; now subst.
Qed.

(** A researcher step that returns: the numbers of its prompt converted and
    the call went through. *)
Lemma research_step_inr theme iteration st (w : World) r w1 :
  research_step runner researcher_prompt theme iteration st w = (inr r, w1) ->
  format_ints (researcher_prompt_numbers iteration (fact_check_history st)
                 (evaluations st)) = inr tt
  /\ _run_with_retry runner Researcher
       (researcher_prompt theme iteration (current_plan st)
          (accepted_findings st) (accepted_evidence st)
          (fact_check_history st) (evaluations st))
       MAX_PARSE_RETRIES w
     = (inr r, w1).
Proof.
  unfold research_step, bind, lift. intros Hres.
  destruct (format_ints _) as [e|[]]; [discriminate|]. now split.
Qed.

(** A completed iteration leaves the researcher's calls in the log as they
    were. *)
Lemma after_research_researcher_calls theme max_iterations iteration r st
    (w : World) st' stop w' :
  after_research runner fact_check_prompt evaluator_prompt theme
    max_iterations iteration r st w = (inr (st', stop), w') ->
  calls_to Researcher (calls w') = calls_to Researcher (calls w).
Proof.
  intros Hrun.
  apply after_research_inv in Hrun
    as (fact_check & w1 & evaluation & Hstep & Heval & _).
  apply fact_check_step_log in Hstep as (new1 & Hc1 & Ha1).
  apply run_with_retry_log in Heval as (new2 & Hc2 & Ha2 & _).
  rewrite Hc2, Hc1.
  rewrite (calls_to_app_other Researcher Evaluator) by (done || exact Ha2).
  now rewrite (calls_to_app_other Researcher FactChecker).
Qed.

(** After a loop that ran at least once, [current_result] is what the last
    call to the researcher returned. *)
Lemma iterate_current_result theme max_iterations iterations :
  forall st (w : World) st' w',
    iterations <> [] ->
    iterate runner researcher_prompt fact_check_prompt evaluator_prompt theme
      max_iterations iterations st w = (inr st', w') ->
    exists r p,
      current_result st' = Some r
      /\ last (calls_to Researcher (calls w'))
         = Some (mkCall Researcher p (inr r)).
Proof.
  induction iterations as [|iteration rest IH]; intros st w st' w' Hne Hrun;
    [congruence|].
  simpl in Hrun. unfold bind in Hrun.
  destruct (research_step runner researcher_prompt theme iteration st w)
    as [[e|r] w1] eqn:Hres; [discriminate|].
  destruct (after_research runner fact_check_prompt evaluator_prompt theme
              max_iterations iteration r st w1)
    as [[e|[st1 stop]] w2] eqn:Hafter; [discriminate|].
  assert (Hhere : exists p,
             current_result st1 = Some r
             /\ last (calls_to Researcher (calls w2))
                = Some (mkCall Researcher p (inr r))).
  { apply research_step_inr in Hres as [_ Hres].
    destruct (run_with_retry_log runner Researcher _ _ w (inr r) w1 Hres)
      as (new & Hcalls & Hagents & p & Hlast).
    exists p. split.
    - now apply after_research_inv in Hafter
        as (? & ? & ? & _ & _ & _ & _ & Hcur & _).
    - rewrite (after_research_researcher_calls _ _ _ _ _ _ _ _ _ Hafter).
      rewrite Hcalls, calls_to_app_same by exact Hagents.
      rewrite last_app, Hlast. reflexivity. }
  destruct stop.
  - unfold ret in Hrun. inversion Hrun; subst.
    destruct Hhere as (p & Hcur & Hlast). now exists r, p.
  - destruct rest as [|next rest'].
    + simpl in Hrun. unfold ret in Hrun. inversion Hrun; subst.
      destruct Hhere as (p & Hcur & Hlast). now exists r, p.
    + now apply (IH st1 w2 st' w').
Qed.

Lemma research_loop_inv theme max_iterations user_input (w : World) st w' :
  research_loop runner planner_prompt refinement_prompt researcher_prompt
    fact_check_prompt evaluator_prompt theme max_iterations user_input w
  = (inr st, w') ->
  exists plan w0,
    iterate runner researcher_prompt fact_check_prompt evaluator_prompt theme
      max_iterations (range 1 (max_iterations + 1)) (initial_state plan) w0
    = (inr st, w').
Proof.
  unfold research_loop, bind. intros Hrun.
  destruct (plan_step runner planner_prompt refinement_prompt theme
              user_input w) as [[e|plan] w0]; [discriminate|].
  now exists plan, w0.
Qed.

Lemma final_result_fields st r :
  current_result st = Some r ->
  exists final,
    final_result st = Some final
    /\ ResearchResultOutput.findings final = accepted_findings st
    /\ ResearchResultOutput.evidence final = accepted_evidence st
    /\ ResearchResultOutput.theme final = ResearchResultOutput.theme r
    /\ ResearchResultOutput.plan_used final = ResearchResultOutput.plan_used r
    /\ ResearchResultOutput.research_depth_analysis final
       = ResearchResultOutput.research_depth_analysis r
    /\ ResearchResultOutput.interconnections final
       = ResearchResultOutput.interconnections r
    /\ ResearchResultOutput.summary final = ResearchResultOutput.summary r
    /\ ResearchResultOutput.iteration_number final
       = ResearchResultOutput.iteration_number r.
Proof.
  intros Hcur. unfold final_result, overwrite_findings, overwrite_evidence.
  rewrite Hcur.
  destruct (accepted_findings st) as [|f fs];
    destruct (accepted_evidence st) as [|e es]; simpl;
    eexists; (split; [reflexivity|]); simpl; repeat split.
Qed.

(** C2.  If a run with [max_iterations >= 1] leaves the loop in state [st],
    the function returns a result whose findings are the accumulated
    [accepted_findings] and whose evidence is the accumulated
    [accepted_evidence], in accumulation order; an empty pool gives an empty
    field, whatever the last researcher output held. *)
Theorem final_result_is_accumulated_pool theme max_iterations user_input
    (w : World) st w' :
  1 <= max_iterations ->
  research_loop runner planner_prompt refinement_prompt researcher_prompt
    fact_check_prompt evaluator_prompt theme max_iterations user_input w
  = (inr st, w') ->
  exists final,
    run_agentic_research runner planner_prompt refinement_prompt
      researcher_prompt fact_check_prompt evaluator_prompt theme
      max_iterations user_input w
    = (inr (current_plan st, Some final, evaluations st,
            fact_check_history st, raw_results st), w')
    /\ ResearchResultOutput.findings final = accepted_findings st
    /\ ResearchResultOutput.evidence final = accepted_evidence st.
Proof.
  intros Hmax Hloop.
  destruct (research_loop_inv _ _ _ _ _ _ Hloop) as (plan & w0 & Hiter).
  apply iterate_current_result in Hiter as (r & p & Hcur & _).
  2:{ rewrite range_cons by lia. discriminate. }
  destruct (final_result_fields st r Hcur) as (final & Hfinal & Hf & He & _).
  exists final. split; [|split; assumption].
  unfold run_agentic_research, bind. rewrite Hloop.
  unfold ret, returned_of. now rewrite Hfinal.
Qed.

(** C10.  If a run with [max_iterations >= 1] leaves the loop in state
    [st], the returned result differs from the output [r] of the last call
    to the researcher in its findings and evidence only: theme, plan_used,
    research_depth_analysis, interconnections, summary and iteration_number
    are those of [r]. *)
Theorem final_result_frame theme max_iterations user_input (w : World) st w' :
  1 <= max_iterations ->
  research_loop runner planner_prompt refinement_prompt researcher_prompt
    fact_check_prompt evaluator_prompt theme max_iterations user_input w
  = (inr st, w') ->
  exists r p final,
    last (calls_to Researcher (calls w')) = Some (mkCall Researcher p (inr r))
    /\ run_agentic_research runner planner_prompt refinement_prompt
         researcher_prompt fact_check_prompt evaluator_prompt theme
         max_iterations user_input w
       = (inr (current_plan st, Some final, evaluations st,
               fact_check_history st, raw_results st), w')
    /\ final
       = ResearchResultOutput.set_evidence (accepted_evidence st)
           (ResearchResultOutput.set_findings (accepted_findings st) r)
    /\ ResearchResultOutput.theme final = ResearchResultOutput.theme r
    /\ ResearchResultOutput.plan_used final = ResearchResultOutput.plan_used r
    /\ ResearchResultOutput.research_depth_analysis final
       = ResearchResultOutput.research_depth_analysis r
    /\ ResearchResultOutput.interconnections final
       = ResearchResultOutput.interconnections r
    /\ ResearchResultOutput.summary final = ResearchResultOutput.summary r
    /\ ResearchResultOutput.iteration_number final
       = ResearchResultOutput.iteration_number r.
Proof.
  intros Hmax Hloop.
  destruct (research_loop_inv _ _ _ _ _ _ Hloop) as (plan & w0 & Hiter).
  apply iterate_current_result in Hiter as (r & p & Hcur & Hlast).
  2:{ rewrite range_cons by lia. discriminate. }
  destruct (final_result_fields st r Hcur)
    as (final & Hfinal & Hf & He & Hframe).
  exists r, p, final. split; [exact Hlast|]. split; [|split; [|exact Hframe]].
  - unfold run_agentic_research, bind. rewrite Hloop.
    unfold ret, returned_of. now rewrite Hfinal.
  - destruct Hframe as (? & ? & ? & ? & ? & ?).
    unfold ResearchResultOutput.set_evidence, ResearchResultOutput.set_findings.
    destruct final, r; simpl in *. congruence.
Qed.

(** *** Termination of the loop *)

(** On a service that answers, the first attempt succeeds. *)
Lemma run_with_retry_answer agent prompt (k : Z) (w : World) :
  never_raises runner -> 0 <= k ->
  exists out s',
    runner agent prompt (service w) = (inr out, s')
    /\ _run_with_retry runner agent prompt k w
       = (inr out, mkWorld s' (calls w ++ [mkCall agent prompt (inr out)])).
Proof.
  intros Hok Hk. destruct (Hok agent prompt (service w)) as (out & s' & Hrun).
  exists out, s'. split; [exact Hrun|].
  unfold _run_with_retry. rewrite range_cons by lia.
  cbn [retry_attempts]. rewrite current_prompt_first.
  now rewrite (Runner_run_eq _ _ _ _ _ _ Hrun).
Qed.

Lemma run_with_retry_ok agent prompt (k : Z) (w : World) :
  never_raises runner -> 0 <= k ->
  exists out s',
    _run_with_retry runner agent prompt k w
    = (inr out, mkWorld s' (calls w ++ [mkCall agent prompt (inr out)])).
Proof.
  intros Hok Hk.
  destruct (run_with_retry_answer agent prompt k w Hok Hk)
    as (out & s' & _ & Hrun).
  now exists out, s'.
Qed.




Lemma first_stop_snoc (continuing : list EvaluationOutput) final :
  Forall (fun e => EvaluationOutput.should_refine e = true) continuing ->
  first_stop (continuing ++ [final])
  = if EvaluationOutput.should_refine final then None
    else Some (Datatypes.S (length continuing)).
Proof.
  induction 1 as [|e continuing He _ IH]; simpl.
  - now destruct (EvaluationOutput.should_refine final).
  - rewrite He, IH. now destruct (EvaluationOutput.should_refine final).
Qed.

(** The number of evaluations of a history that stops as told is
    [min(k, budget)], [k] the first evaluation that asks to stop. *)
Lemma stops_as_told_count budget evs :
  stops_as_told budget evs ->
  1 <= Z.of_nat (length evs) <= budget
  /\ Z.of_nat (length evs)
     = match first_stop evs with
       | Some k => Z.min (Z.of_nat k) budget
       | None => budget
       end.
Proof.
  intros (continuing & final & -> & Hcont & Hlen & Hlast).
  rewrite first_stop_snoc by exact Hcont.
  rewrite length_app in *. simpl in *. split; [lia|].
  destruct (EvaluationOutput.should_refine final).
  - destruct (decide (Z.of_nat (length continuing + 1) < budget)) as [Hlt|Hge];
      [specialize (Hlast Hlt); discriminate | lia].
  - lia.
Qed.


End RunProperties.

(** * The definitions at work on scripted services *)

Lemma scripted_never_raises_demo : never_raises (scripted demo_script).
Proof. intros a prompt s. destruct a; eexists _, _; reflexivity. Qed.

Lemma scripted_never_raises_continue :
  never_raises (scripted always_continue_script).
Proof. intros a prompt s. destruct a; eexists _, _; reflexivity. Qed.



Lemma scripted_never_raises_negative :
  never_raises (scripted negative_count_script).
Proof. intros a prompt s. destruct a; eexists _, _; reflexivity. Qed.


Lemma scripted_modest_demo : reports_modest_numbers (scripted demo_script).
Proof.
  pose proof int_str_bound_large. split.
  - intros prompt s fc s' Hanswer. inversion Hanswer; subst. simpl. lia.
  - intros prompt s ev s' Hanswer. inversion Hanswer; subst.
    repeat constructor; apply printable_small; simpl; lia.
Qed.

(** Three iterations when the evaluator always asks to continue and
    [max_iterations = 3]; one when it asks to stop at once. *)
Example forced_stop_three_iterations :
  length (demo_evaluations always_continue_script 3) = 3%nat
  /\ length (demo_history always_continue_script 3) = 3%nat.
Proof. vm_compute. split; reflexivity. Qed.

Example early_stop_one_iteration :
  length (demo_evaluations demo_script 3) = 1%nat.
Proof. vm_compute. reflexivity. Qed.

(** The verdict echoes a replacement url; the returned result carries the
    researcher's url, and the evidence without url is left out. *)
Example replacement_url_not_accepted :
  (fun r => Evidence.url <$> ResearchResultOutput.evidence r)
    <$> demo_final demo_script 1
  = Some ["https://example.com/1"].
Proof. vm_compute. reflexivity. Qed.

(** Nothing survives when nothing was found: the final result is empty. *)
Example zero_survivor_run :
  (fun r => (ResearchResultOutput.findings r, ResearchResultOutput.evidence r))
    <$> demo_final always_continue_script 2
  = Some ([], []).
Proof. vm_compute. reflexivity. Qed.

(** Japanese contents of 31 characters that differ in the last one have
    different keys, although their first 80 bytes agree: both findings are
    kept, and a verdict that verifies one and removes the other selects the
    verified one. *)
Example japanese_keys_differ :
  content_key japanese_X = Finding.content japanese_X
  /\ content_key japanese_Y = Finding.content japanese_Y
  /\ content_key japanese_X <> content_key japanese_Y
  /\ String.substring 0 80 (Finding.content japanese_X)
     = String.substring 0 80 (Finding.content japanese_Y)
  /\ accumulate_findings [japanese_X] [japanese_Y] = [japanese_X; japanese_Y]
  /\ iteration_accepted_findings japanese_result japanese_verdict
     = [japanese_Y].
Proof.
  split; [vm_compute; reflexivity|]. split; [vm_compute; reflexivity|].
  split; [vm_compute; discriminate|]. split; [vm_compute; reflexivity|].
  split; vm_compute; reflexivity.
Qed.

(** Contents that agree on their first 80 characters have the same key,
    whatever follows: the second finding is not added. *)
Example japanese_long_keys_equal :
  content_key long_X = str_repeat 80 "あ"
  /\ content_key long_Y = str_repeat 80 "あ"
  /\ accumulate_findings [long_X] [long_Y] = [long_X].
Proof. vm_compute. repeat split; reflexivity. Qed.

(** The reason recorded for a removed finding starts with the first 50
    characters of its content. *)
Example japanese_removed_reason :
  removed_reasons_of
    (FactCheckResultOutput.mk [] [] []
       [RemovedFinding.mk (str_repeat 60 "あ") "出所" "裏付けなし"] "" 0 1 0%Q)
  = [str_repeat 50 "あ" +:+ "... → 裏付けなし"].
Proof. vm_compute. reflexivity. Qed.

(** [max_retries = -1]: no attempt is made and [raise None] fails. *)
Example negative_max_retries :
  _run_with_retry (scripted demo_script) Planner "p" (-1) empty_world
  = (inl (TypeError "exceptions must derive from BaseException"), empty_world).
Proof. reflexivity. Qed.

(** [max_retries = 0]: one attempt on the bare prompt, then the error. *)
Example zero_max_retries :
  _run_with_retry (scripted always_malformed_script) Planner "p" 0 empty_world
  = (inl (ModelBehaviorError "0"),
     mkWorld 1%nat [mkCall Planner "p" (inl (ModelBehaviorError "0"))]).
Proof. reflexivity. Qed.

(** A malformed first answer followed by a good one: the retry succeeds on
    the amended prompt. *)
Example retry_then_success :
  let sc :=
    mkScript (fun n => match n with
                       | O => inl (ModelBehaviorError "truncated")
                       | _ => inr sample_plan
                       end)
             (fun _ => inr demo_result) (fun _ => inr demo_verdict)
             (fun _ => inr (sample_evaluation false)) in
  _run_with_retry (scripted sc) Planner "p" 2 empty_world
  = (inr sample_plan,
     mkWorld 2%nat
       [mkCall Planner "p" (inl (ModelBehaviorError "truncated"));
        mkCall Planner ("p" +:+ retry_amendment 1 2) (inr sample_plan)]).
Proof. reflexivity. Qed.

(** ** Instances of the theorems *)


Lemma run_with_retry_passthrough_witness :
  0 <= 2
  /\ scripted service_down_script Researcher "p" (service empty_world)
     = (inl (OtherException "connection refused"), 1%nat)
  /\ is_ModelBehaviorError (OtherException "connection refused") = false
  /\ _run_with_retry (scripted service_down_script) Researcher "p" 2
       empty_world
     = (inl (OtherException "connection refused"),
        mkWorld 1%nat
          (calls empty_world
           ++ [mkCall Researcher "p"
                 (inl (OtherException "connection refused"))])).
Proof.
  split; [lia|]. split; [reflexivity|]. split; [reflexivity|].
  apply (run_with_retry_passthrough (scripted service_down_script) Researcher
           "p" 2 empty_world (OtherException "connection refused") 1%nat);
    [lia|reflexivity|reflexivity].
Defined.

Lemma demo_iteration_runs :
  demo_after_research demo_script demo_result
  = (inr (demo_iteration_state demo_script demo_result,
          demo_iteration_stop demo_script demo_result),
     demo_iteration_world demo_script demo_result).
Proof. vm_compute. reflexivity. Qed.

Lemma demo_iteration_checks :
  fact_check_step (scripted demo_script) demo_fact_check_prompt demo_result
    empty_world
  = (inr (Some demo_verdict),
     mkWorld 1%nat
       [mkCall FactChecker (demo_fact_check_prompt demo_result)
          (inr demo_verdict)]).
Proof. vm_compute. reflexivity. Qed.

Lemma demo_verdict_validated : FactCheckResultOutput.validated demo_verdict.
Proof. split; vm_compute; discriminate. Qed.

Lemma demo_loop_runs :
  demo_loop demo_script 1
  = (inr (demo_loop_state demo_script 1), demo_loop_world demo_script 1).
Proof. vm_compute. reflexivity. Qed.

Lemma fact_check_skipped_on_empty_witness :
  ResearchResultOutput.findings empty_result = []
  /\ ResearchResultOutput.evidence empty_result = []
  /\ fact_check_step (scripted always_continue_script)
       demo_fact_check_prompt empty_result empty_world
     = (inr None, empty_world)
  /\ calls_to FactChecker
       (calls (demo_iteration_world always_continue_script empty_result))
     = calls_to FactChecker (calls empty_world).
Proof.
  split; [reflexivity|]. split; [reflexivity|].
  destruct (fact_check_skipped_on_empty (scripted always_continue_script)
              demo_fact_check_prompt demo_evaluator_prompt "theme" 3 1
              empty_result demo_state empty_world
              (demo_after_research always_continue_script empty_result).1
              (demo_iteration_world always_continue_script empty_result)
              eq_refl eq_refl (surjective_pairing _))
    as (Hstep & Hcalls & _).
  split; [exact Hstep|exact Hcalls].
Defined.

Lemma history_entry_copies_verdict_witness :
  FactCheckResultOutput.validated demo_verdict
  /\ exists entry,
       fact_check_history (demo_iteration_state demo_script demo_result)
       = fact_check_history demo_state ++ [entry]
       /\ FactCheckEntry.reliability entry
          = FactCheckResultOutput.reliability_score demo_verdict
       /\ (0 <= FactCheckEntry.reliability entry)%Q
       /\ (FactCheckEntry.reliability entry <= 1)%Q.
Proof.
  split; [exact demo_verdict_validated|].
  destruct (history_entry_copies_verdict (scripted demo_script)
              demo_fact_check_prompt demo_evaluator_prompt "theme" 3 1
              demo_result demo_state empty_world
              (demo_iteration_state demo_script demo_result)
              (demo_iteration_stop demo_script demo_result)
              (demo_iteration_world demo_script demo_result)
              (Some demo_verdict) _
              demo_iteration_runs demo_iteration_checks)
    as (entry & Hhist & _ & Hlo & Hhi & _ & _ & Hscore).
  { intros fc Hfc. inversion Hfc; subst fc. exact demo_verdict_validated. }
  exists entry. auto.
Defined.

Lemma japanese_iteration_runs :
  demo_after_research japanese_script japanese_result
  = (inr (demo_iteration_state japanese_script japanese_result,
          demo_iteration_stop japanese_script japanese_result),
     demo_iteration_world japanese_script japanese_result).
Proof. vm_compute. reflexivity. Qed.

Lemma accepted_items_from_researcher_witness :
  exists new_findings new_evidence,
    accepted_findings (demo_iteration_state japanese_script japanese_result)
    = accepted_findings demo_state ++ new_findings
    /\ accepted_evidence (demo_iteration_state japanese_script japanese_result)
       = accepted_evidence demo_state ++ new_evidence
    /\ sublist new_findings (ResearchResultOutput.findings japanese_result)
    /\ sublist new_evidence (ResearchResultOutput.evidence japanese_result)
    /\ Forall (fun f => content_key f ∈ verified_contents japanese_verdict)
              new_findings
    /\ new_findings = [japanese_Y].
Proof.
  destruct (accepted_items_from_researcher (scripted japanese_script)
              demo_fact_check_prompt demo_evaluator_prompt "theme" 3 1
              japanese_result demo_state empty_world
              (demo_iteration_state japanese_script japanese_result)
              (demo_iteration_stop japanese_script japanese_result)
              (demo_iteration_world japanese_script japanese_result)
              japanese_iteration_runs)
    as (fact_check & w1 & nf & ne & Hstep & Hf & He & Hsf & Hse & Hsel & _).
  assert (Hverdict : fact_check = Some japanese_verdict).
  { assert (Hchecked :
      fact_check_step (scripted japanese_script) demo_fact_check_prompt
        japanese_result empty_world
      = (inr (Some japanese_verdict),
         mkWorld 1%nat
           [mkCall FactChecker (demo_fact_check_prompt japanese_result)
              (inr japanese_verdict)])) by (vm_compute; reflexivity).
    rewrite Hchecked in Hstep. now inversion Hstep. }
  subst fact_check. destruct Hsel as [Hkeys _].
  assert (Hpool :
    accepted_findings (demo_iteration_state japanese_script japanese_result)
    = [japanese_Y]) by (vm_compute; reflexivity).
  exists nf, ne. repeat split; try assumption.
  rewrite Hpool in Hf. exact (eq_sym Hf).
Defined.

Lemma final_result_is_accumulated_pool_witness :
  1 <= 1
  /\ exists final,
       demo_run demo_script 1
       = (inr (current_plan (demo_loop_state demo_script 1), Some final,
               evaluations (demo_loop_state demo_script 1),
               fact_check_history (demo_loop_state demo_script 1),
               raw_results (demo_loop_state demo_script 1)),
          demo_loop_world demo_script 1)
       /\ ResearchResultOutput.findings final
          = accepted_findings (demo_loop_state demo_script 1)
       /\ ResearchResultOutput.evidence final
          = accepted_evidence (demo_loop_state demo_script 1).
Proof.
  split; [lia|].
  exact (final_result_is_accumulated_pool (scripted demo_script)
           demo_planner_prompt demo_refinement_prompt demo_researcher_prompt
           demo_fact_check_prompt demo_evaluator_prompt "theme" 1 ""
           empty_world (demo_loop_state demo_script 1)
           (demo_loop_world demo_script 1) ltac:(lia) demo_loop_runs).
Defined.

Lemma final_result_frame_witness :
  1 <= 1
  /\ exists r final,
       demo_final demo_script 1 = Some final
       /\ final
          = ResearchResultOutput.set_evidence
              (accepted_evidence (demo_loop_state demo_script 1))
              (ResearchResultOutput.set_findings
                 (accepted_findings (demo_loop_state demo_script 1)) r)
       /\ ResearchResultOutput.iteration_number final
          = ResearchResultOutput.iteration_number r.
Proof.
  split; [lia|].
  destruct (final_result_frame (scripted demo_script)
              demo_planner_prompt demo_refinement_prompt
              demo_researcher_prompt demo_fact_check_prompt
              demo_evaluator_prompt "theme" 1 "" empty_world
              (demo_loop_state demo_script 1) (demo_loop_world demo_script 1)
              ltac:(lia) demo_loop_runs)
    as (r & p & final & _ & Hrun & Hfinal & _ & _ & _ & _ & _ & Hnum).
  exists r, final. split; [|split; assumption].
  unfold demo_final, demo_run. now rewrite Hrun.
Defined.


(** ** Numbers that stop a run *)


(** A negative count next to a large one: the removal rate
    [removed / max(verified + removed, 1)] is too large for a [float]. *)
Example negative_count_overflows :
  FactCheckResultOutput.validated negative_verdict
  /\ (demo_run negative_count_script 1).1 = inl int_division_error.
Proof. split; [split; vm_compute; discriminate|]. vm_compute. reflexivity. Qed.

(** ** A retry budget that cannot be announced *)


(** ** The reliability of a history entry is not recomputed *)

(** The scripted fact checker reports 3 verified, 1 removed and a score of
    1/2, all of which the schema accepts.  The history entry of the run
    holds these three values: its reliability is not 3 / max(3 + 1, 1). *)
Lemma reliability_not_recomputed :
  FactCheckResultOutput.validated demo_verdict
  /\ (fun e => (FactCheckEntry.verified e, FactCheckEntry.removed e,
                FactCheckEntry.reliability e))
       <$> demo_history demo_script 1
     = [(3, 1, 1 # 2)]
  /\ ~ Forall (fun e =>
                 (FactCheckEntry.reliability e
                  == verified_ratio (FactCheckEntry.verified e)
                       (FactCheckEntry.removed e))%Q)
              (demo_history demo_script 1).
Proof.
  split; [split; vm_compute; discriminate|].
  split; [vm_compute; reflexivity|].
  intros Hall.
  assert (Hhist : demo_history demo_script 1
                  = [checked_entry 1 demo_verdict])
    by (vm_compute; reflexivity).
  rewrite Hhist in Hall. apply Forall_inv in Hall.
  vm_compute in Hall. discriminate.
Qed.

(** * Further properties of the workflow *)

(** ** The retrying call wrapper on an arbitrary service *)

Section RetryShape.

Context {Svc : Type}.
Variable runner : forall a : AgentName, string -> Svc -> (exn + output_type a) * Svc.


(** The calls made by the attempt loop: as many as needed, on the prompts of
    the attempts in order; all but the last ended in a malformed-output
    error, and the outcome of the last is the outcome of the loop. *)
Lemma retry_attempts_shape agent prompt max_retries attempts :
  max_retries < int_str_bound ->
  Forall (fun a => 0 <= a <= max_retries) attempts ->
  forall last_error (w : World) res w',
    retry_attempts runner agent prompt max_retries attempts last_error w
    = (res, w') ->
    exists new,
      calls w' = calls w ++ new
      /\ call_prompt <$> new
         = attempt_prompt prompt max_retries <$> take (length new) attempts
      /\ (length new <= length attempts)%nat
      /\ (attempts = [] ->
          new = []
          /\ res = inl (match last_error with
                        | Some e => e
                        | None =>
                            TypeError "exceptions must derive from BaseException"
                        end))
      /\ (attempts <> [] ->
          exists init p,
            new = init ++ [mkCall agent p res]
            /\ Forall (fun c => exists msg,
                         call_outcome c = inl (ModelBehaviorError msg)) init
            /\ ((length new < length attempts)%nat ->
                forall msg, res <> inl (ModelBehaviorError msg))).
Proof.
  intros Hk Hin.
  induction Hin as [|attempt rest Ha _ IH]; intros last_error w res w' Hrun.
  - exists []. rewrite app_nil_r. simpl in Hrun.
    destruct last_error; simpl in Hrun; unfold raise in Hrun;
      inversion Hrun; subst; repeat split; auto; congruence.
  - cbn [retry_attempts] in Hrun.
    rewrite current_prompt_ok in Hrun by lia. unfold Runner_run in Hrun.
    destruct (runner agent (attempt_prompt prompt max_retries attempt)
                (service w)) as [r s1].
    assert (Hone : forall r0 : exn + output_type agent,
               (forall msg, r0 <> inl (ModelBehaviorError msg)) ->
               (r0, mkWorld s1 (calls w
                  ++ [mkCall agent (attempt_prompt prompt max_retries attempt)
                        r0])) = (res, w') ->
               exists new,
                 calls w' = calls w ++ new
                 /\ call_prompt <$> new
                    = attempt_prompt prompt max_retries
                        <$> take (length new) (attempt :: rest)
                 /\ (length new <= length (attempt :: rest))%nat
                 /\ (attempt :: rest = [] ->
                     new = []
                     /\ res = inl (match last_error with
                                   | Some e => e
                                   | None =>
                                       TypeError
                                         "exceptions must derive from BaseException"
                                   end))
                 /\ (attempt :: rest <> [] ->
                     exists init p,
                       new = init ++ [mkCall agent p res]
                       /\ Forall (fun c => exists msg,
                                    call_outcome c
                                    = inl (ModelBehaviorError msg)) init
                       /\ ((length new < length (attempt :: rest))%nat ->
                           forall msg, res <> inl (ModelBehaviorError msg)))).
    { intros r0 Hr0 Heq. inversion Heq; subst. eexists [_]. simpl.
      split; [reflexivity|]. split; [reflexivity|]. split; [lia|].
      split; [discriminate|]. intros _.
      exists [], (attempt_prompt prompt max_retries attempt).
      split; [reflexivity|]. split; [constructor|]. intros _. exact Hr0. }
    destruct r as [e|out]; [destruct e as [msg|msg|msg|msg|msg]|];
      try (eapply Hone; [|exact Hrun]; intros ?; discriminate).
    apply IH in Hrun as (new & Hcalls & Hprompts & Hlen & Hnil & Hcons).
    simpl in Hcalls.
    exists (mkCall agent (attempt_prompt prompt max_retries attempt)
              (inl (ModelBehaviorError msg)) :: new).
    rewrite Hcalls, <- app_assoc. split; [reflexivity|].
    split.
    { rewrite fmap_cons, Hprompts. reflexivity. }
    split; [simpl; lia|]. split; [discriminate|]. intros _.
    destruct rest as [|next rest'].
    + destruct (Hnil eq_refl) as (-> & ->).
      exists [], (attempt_prompt prompt max_retries attempt).
      split; [reflexivity|]. split; [constructor|]. simpl. lia.
    + destruct (Hcons ltac:(discriminate)) as (init & p & -> & Hinit & Hlast).
      exists (mkCall agent (attempt_prompt prompt max_retries attempt)
                (inl (ModelBehaviorError msg)) :: init), p.
      split; [reflexivity|].
      split; [constructor; [now exists msg|exact Hinit]|].
      intros Hlt. apply Hlast. simpl in Hlt |- *. lia.
Qed.


(** X2. With a negative [max_retries] no attempt is made: the service is
    not called and [raise last_error] raises a [TypeError], whatever the
    service would have answered. *)
Theorem run_with_retry_negative agent prompt (k : Z) (w : World) :
  k < 0 ->
  _run_with_retry runner agent prompt k w
  = (inl (TypeError "exceptions must derive from BaseException"), w).
Proof.
  intros Hk. unfold _run_with_retry, range.
  rewrite seqZ_nil by lia. reflexivity.
Qed.

End RetryShape.

(** ** The verified sets and the merge loops *)

Section PoolInvariants.

Lemma add_verified_url_elem (urls : gset string) (ve : VerifiedEvidence)
    (u : string) :
  u ∈ add_verified_url urls ve
  <-> u ∈ urls
      \/ (u <> "" /\ (u = VerifiedEvidence.url ve
                      \/ u = VerifiedEvidence.original_url ve)).
Proof.
  unfold add_verified_url.
  destruct (VerifiedEvidence.original_url ve) as [|a o] eqn:Ho;
    destruct (VerifiedEvidence.url ve) as [|b v] eqn:Hv; simpl;
    rewrite ?elem_of_union, ?elem_of_singleton;
    split; intros H; intuition (subst; auto; try discriminate; try congruence).
Qed.

Lemma foldl_add_verified_url (l : list VerifiedEvidence) (urls : gset string)
    (u : string) :
  u ∈ foldl add_verified_url urls l
  <-> u ∈ urls
      \/ (u <> "" /\ exists ve, ve ∈ l
                               /\ (u = VerifiedEvidence.url ve
                                   \/ u = VerifiedEvidence.original_url ve)).
Proof.
  revert urls. induction l as [|ve l IH]; intros urls; simpl.
  - split; [auto|]. intros [H|(_ & ve & Hin & _)]; [exact H|].
    now apply elem_of_nil in Hin.
  - rewrite IH, add_verified_url_elem. split.
    + intros [[H|(Hne & H)]|(Hne & ve' & Hin & H)]; auto.
      * right. split; [exact Hne|]. exists ve. split; [left|exact H].
      * right. split; [exact Hne|]. exists ve'. split; [now right|exact H].
    + intros [H|(Hne & ve' & Hin & H)]; auto.
      apply elem_of_cons in Hin as [->|Hin].
      * left. right. auto.
      * right. split; [exact Hne|]. now exists ve'.
Qed.

(** X3. The verified-url set of a verdict holds exactly the non-empty [url]
    and [original_url] strings of its verified evidences; in particular it
    never holds the empty string, so a researcher evidence without url is
    never selected. *)
Theorem verified_urls_spec (fc : FactCheckResultOutput) (u : string) :
  u ∈ verified_urls fc
  <-> u <> ""
      /\ exists ve,
           ve ∈ FactCheckResultOutput.verified_evidences fc
           /\ (u = VerifiedEvidence.url ve
               \/ u = VerifiedEvidence.original_url ve).
Proof.
  unfold verified_urls. rewrite foldl_add_verified_url.
  split; [intros [H|H]; [now apply not_elem_of_empty in H|exact H]|auto].
Qed.

Lemma accumulate_findings_NoDup (new accepted : list Finding) :
  NoDup (content_key <$> accepted) ->
  NoDup (content_key <$> accumulate_findings accepted new).
Proof.
  unfold accumulate_findings. revert accepted.
  induction new as [|f new IH]; intros accepted Hnd; simpl; [exact Hnd|].
  rewrite merge_finding_step.
  destruct (decide (content_key f ∈ content_key <$> accepted)) as [Hin|Hout];
    [now apply IH|].
  apply IH. rewrite fmap_app. apply NoDup_app. split; [exact Hnd|].
  split; [|apply NoDup_singleton].
  intros x Hx Hx'. apply list_elem_of_singleton in Hx'. now subst.
Qed.

Lemma accumulate_evidence_NoDup (new accepted : list Evidence) :
  NoDup (Evidence.url <$> accepted) ->
  NoDup (Evidence.url <$> accumulate_evidence accepted new).
Proof.
  unfold accumulate_evidence. revert accepted.
  induction new as [|e new IH]; intros accepted Hnd; simpl; [exact Hnd|].
  rewrite merge_evidence_step.
  destruct (decide (Evidence.url e = "")) as [Hempty|Hfull];
    [now apply IH|].
  destruct (decide (Evidence.url e ∈ Evidence.url <$> accepted)) as [Hin|Hout];
    [now apply IH|].
  apply IH. rewrite fmap_app. apply NoDup_app. split; [exact Hnd|].
  split; [|apply NoDup_singleton].
  intros x Hx Hx'. apply list_elem_of_singleton in Hx'. now subst.
Qed.

Lemma accumulate_findings_complete (new accepted : list Finding) (f : Finding) :
  f ∈ new ->
  content_key f ∈ content_key <$> accumulate_findings accepted new.
Proof.
  unfold accumulate_findings. revert accepted.
  induction new as [|g new IH]; intros accepted Hf;
    [now apply elem_of_nil in Hf|].
  simpl. rewrite merge_finding_step.
  apply elem_of_cons in Hf as [->|Hf].
  - destruct (decide (content_key g ∈ content_key <$> accepted)) as [Hin|Hout].
    + destruct (foldl_merge_finding new accepted) as (added & -> & _).
      simpl. rewrite fmap_app. apply elem_of_app. now left.
    + destruct (foldl_merge_finding new (accepted ++ [g])) as (added & -> & _).
      simpl. rewrite !fmap_app. apply elem_of_app. left.
      apply elem_of_app. right. now left.
  - destruct (decide (content_key g ∈ content_key <$> accepted));
      now apply IH.
Qed.

Lemma accumulate_evidence_complete (new accepted : list Evidence)
    (e : Evidence) :
  e ∈ new -> Evidence.url e <> "" ->
  Evidence.url e ∈ Evidence.url <$> accumulate_evidence accepted new.
Proof.
  unfold accumulate_evidence. revert accepted.
  induction new as [|g new IH]; intros accepted He Hne;
    [now apply elem_of_nil in He|].
  simpl. rewrite merge_evidence_step.
  apply elem_of_cons in He as [->|He].
  - destruct (decide (Evidence.url g = "")) as [Hempty|Hfull]; [congruence|].
    destruct (decide (Evidence.url g ∈ Evidence.url <$> accepted)) as [Hin|Hout].
    + destruct (foldl_merge_evidence new accepted) as (added & -> & _).
      simpl. rewrite fmap_app. apply elem_of_app. now left.
    + destruct (foldl_merge_evidence new (accepted ++ [g])) as (added & -> & _).
      simpl. rewrite !fmap_app. apply elem_of_app. left.
      apply elem_of_app. right. now left.
  - destruct (decide (Evidence.url g = ""));
      [|destruct (decide (Evidence.url g ∈ Evidence.url <$> accepted))];
      now apply IH.
Qed.

(** X4. Merging any batch into pools whose keys (80-character content
    prefixes for findings, urls for evidence) are pairwise distinct, with no
    empty url, gives pools with the same property.  Read as texts, no two
    findings of the resulting pool have the same first 80 characters. *)
Theorem accumulate_keeps_keys_distinct (accepted_f new_f : list Finding)
    (accepted_e new_e : list Evidence) :
  NoDup (content_key <$> accepted_f) ->
  NoDup (Evidence.url <$> accepted_e) ->
  Forall (fun e => Evidence.url e <> "") accepted_e ->
  NoDup (content_key <$> accumulate_findings accepted_f new_f)
  /\ NoDup (Evidence.url <$> accumulate_evidence accepted_e new_e)
  /\ Forall (fun e => Evidence.url e <> "")
            (accumulate_evidence accepted_e new_e)
  /\ forall texts,
       Finding.content <$> accumulate_findings accepted_f new_f
       = utf8 <$> texts ->
       NoDup (take 80 <$> texts).
Proof.
  intros Hf He Hne.
  assert (Hkeys : NoDup (content_key <$> accumulate_findings accepted_f new_f))
    by now apply accumulate_findings_NoDup.
  split; [exact Hkeys|].
  split; [now apply accumulate_evidence_NoDup|]. split.
  - destruct (accumulate_evidence_app accepted_e new_e)
      as (added & -> & _ & Hadded).
    apply Forall_app. now split.
  - intros texts Hl. now apply (keys_NoDup_utf8 _ _ Hl).
Qed.

(** X5. After a merge the key of every finding of the batch is a key of the
    pool, and every non-empty url of the batch is a url of the pool: a
    candidate is left out only when an item with its key is kept, or when it
    is an evidence without url.  Read as texts, the first 80 characters of
    every finding of the batch are the first 80 characters of a finding of
    the pool. *)
Theorem accumulate_covers_batch (accepted_f new_f : list Finding)
    (accepted_e new_e : list Evidence) :
  Forall (fun f =>
            content_key f
            ∈ content_key <$> accumulate_findings accepted_f new_f) new_f
  /\ Forall (fun e =>
               Evidence.url e = ""
               \/ Evidence.url e
                  ∈ Evidence.url <$> accumulate_evidence accepted_e new_e)
            new_e
  /\ forall f text texts,
       f ∈ new_f ->
       Forall code_point text -> Forall (Forall code_point) texts ->
       Finding.content f = utf8 text ->
       Finding.content <$> accumulate_findings accepted_f new_f
       = utf8 <$> texts ->
       take 80 text ∈ take 80 <$> texts.
Proof.
  split; [|split]; [apply Forall_forall..|].
  - intros f Hf. now apply accumulate_findings_complete.
  - intros e He. destruct (decide (Evidence.url e = "")); [now left|right].
    now apply accumulate_evidence_complete.
  - intros f text texts Hin Hv Hvs Hf Hl.
    apply (key_in_pool_utf8 f text _ texts Hv Hvs Hf Hl).
    now apply accumulate_findings_complete.
Qed.

Lemma accumulate_findings_known (pool new : list Finding) :
  Forall (fun f => content_key f ∈ content_key <$> pool) new ->
  accumulate_findings pool new = pool.
Proof.
  unfold accumulate_findings. induction 1 as [|f new Hf _ IH]; [reflexivity|].
  simpl. rewrite merge_finding_step.
  destruct (decide (content_key f ∈ content_key <$> pool)); [exact IH|done].
Qed.

Lemma accumulate_evidence_known (pool new : list Evidence) :
  Forall (fun e => Evidence.url e <> "" ->
                   Evidence.url e ∈ Evidence.url <$> pool) new ->
  accumulate_evidence pool new = pool.
Proof.
  unfold accumulate_evidence. induction 1 as [|e new He _ IH]; [reflexivity|].
  simpl. rewrite merge_evidence_step.
  destruct (decide (Evidence.url e = "")); [exact IH|].
  destruct (decide (Evidence.url e ∈ Evidence.url <$> pool)); [exact IH|].
  exfalso. auto.
Qed.

(** X6. Merging the same batch a second time changes nothing, for findings
    and for evidence: a fact checker that verifies again in a later
    iteration what it verified before does not grow the pools. *)
Theorem accumulate_twice (accepted_f new_f : list Finding)
    (accepted_e new_e : list Evidence) :
  accumulate_findings (accumulate_findings accepted_f new_f) new_f
  = accumulate_findings accepted_f new_f
  /\ accumulate_evidence (accumulate_evidence accepted_e new_e) new_e
     = accumulate_evidence accepted_e new_e.
Proof.
  split.
  - apply accumulate_findings_known, Forall_forall.
    intros f Hf. now apply accumulate_findings_complete.
  - apply accumulate_evidence_known, Forall_forall.
    intros e He Hne. now apply accumulate_evidence_complete.
Qed.

End PoolInvariants.

(** ** Iterations and runs on an arbitrary service *)

Section RunInvariants.

Context {Svc : Type}.
Variable runner : forall a : AgentName, string -> Svc -> (exn + output_type a) * Svc.
Variable planner_prompt : string -> string.
Variable refinement_prompt : SearchPlanOutput -> string -> string.
Variable researcher_prompt :
  string -> Z -> SearchPlanOutput -> list Finding -> list Evidence ->
  list FactCheckEntry -> list EvaluationOutput -> string.
Variable fact_check_prompt : ResearchResultOutput -> string.
Variable evaluator_prompt :
  string -> SearchPlanOutput -> ResearchResultOutput -> list FactCheckEntry ->
  list EvaluationOutput -> Z -> Z -> string.

Lemma record_fact_check_entry iteration r fact_check st :
  exists entry,
    fact_check_history (record_fact_check iteration r fact_check st)
    = fact_check_history st ++ [entry]
    /\ FactCheckEntry.iteration entry = iteration.
Proof. destruct fact_check; simpl; eexists; split; reflexivity. Qed.

Lemma range_singleton (i : Z) : range i (i + 1) = [i].
Proof.
  rewrite range_cons by lia. f_equal. unfold range. apply seqZ_nil. lia.
Qed.

(** X7. The plan after a completed iteration: unchanged when the loop
    breaks, even if the evaluation carries a revised plan; otherwise the
    evaluation's revised plan when there is one, and the old plan when
    there is none.  The loop breaks exactly when the evaluation does not ask
    to refine or the iteration number has reached [max_iterations]. *)
Theorem plan_after_iteration theme max_iterations iteration r st (w : World)
    st' stop w' :
  after_research runner fact_check_prompt evaluator_prompt theme
    max_iterations iteration r st w = (inr (st', stop), w') ->
  exists evaluation,
    last (evaluations st') = Some evaluation
    /\ EvaluationOutput.iteration_number evaluation = iteration
    /\ stop = negb (EvaluationOutput.should_refine evaluation)
              || bool_decide (iteration >= max_iterations)
    /\ current_plan st'
       = if stop then current_plan st
         else match EvaluationOutput.refined_plan evaluation with
              | Some refined => refined
              | None => current_plan st
              end.
Proof.
  intros Hrun.
  pose proof (after_research_inv _ _ _ _ _ _ _ _ _ _ _ _ Hrun)
    as (fact_check & w1 & evaluation & Hstep & Heval & Hstop & Hevs & _).
  exists (EvaluationOutput.set_iteration_number iteration evaluation).
  split; [rewrite Hevs; apply last_snoc|]. split; [reflexivity|].
  split; [exact Hstop|].
  unfold after_research, bind, lift in Hrun. rewrite Hstep in Hrun.
  match type of Hrun with
  | context [evaluator_prompt_numbers ?evs ?history ?i ?m] =>
      destruct (evaluator_prompt_numbers evs history i m) as [e|[]];
        [discriminate Hrun|]
  end.
  cbv zeta in Heval. rewrite Heval in Hrun. simpl in Hrun. simpl.
  rewrite <- Hstop in Hrun. destruct stop.
  - unfold ret in Hrun. inversion Hrun; subst. now destruct fact_check.
  - destruct (EvaluationOutput.refined_plan evaluation);
      unfold ret in Hrun; inversion Hrun; subst; now destruct fact_check.
Qed.

(** X8. When the researcher returned at least one finding or one evidence,
    the fact-check step does call the fact checker, first on the fact-check
    prompt itself, and it never yields [None]: it returns a verdict or
    raises. *)
Theorem fact_check_issued_when_nonempty r (w : World) res w' :
  ResearchResultOutput.findings r <> []
  \/ ResearchResultOutput.evidence r <> [] ->
  fact_check_step runner fact_check_prompt r w = (res, w') ->
  res <> inr None
  /\ exists first rest,
       calls w' = calls w ++ first :: rest
       /\ call_agent first = FactChecker
       /\ call_prompt first = fact_check_prompt r
       /\ Forall (fun c => call_agent c = FactChecker) rest.
Proof.
  intros Hnonempty Hstep. unfold fact_check_step, bind in Hstep.
  assert (Hgate : negb (list_truthy (ResearchResultOutput.evidence r))
                  && negb (list_truthy (ResearchResultOutput.findings r))
                  = false).
  { destruct (ResearchResultOutput.findings r), (ResearchResultOutput.evidence r);
      simpl; try reflexivity. destruct Hnonempty; congruence. }
  rewrite Hgate in Hstep.
  destruct (_run_with_retry runner FactChecker (fact_check_prompt r)
              MAX_PARSE_RETRIES w) as [res_fc w2] eqn:Hfc.
  assert (w2 = w' /\ res <> inr None) as (-> & Hres).
  { destruct res_fc; unfold ret in Hstep; inversion Hstep; subst;
      split; congruence. }
  split; [exact Hres|].
  pose proof (retry_attempts_log runner _ _ _ _ _ _ _ _ Hfc)
    as (new' & Hcalls' & Hagents & _).
  unfold _run_with_retry in Hfc.
  apply retry_attempts_shape in Hfc
    as (new & Hcalls & Hprompts & _ & _ & Hcons);
    [|pose proof int_str_bound_large; unfold MAX_PARSE_RETRIES; lia
     |apply Forall_forall; intros a Ha%range_bounds; lia].
  assert (new' = new) as -> by (rewrite Hcalls in Hcalls'; now simplify_list_eq).
  destruct Hcons as (init & p & Hnew & _); [discriminate|].
  destruct new as [|first rest]; [now destruct init|].
  exists first, rest. split; [exact Hcalls|].
  apply Forall_cons in Hagents as [Hfirst Hrest].
  split; [exact Hfirst|]. split; [|exact Hrest].
  simpl in Hprompts. now inversion Hprompts.
Qed.

(** The state after a loop that returned: what it appended to the three
    histories, for the iterations [lo .. max_iterations]. *)
Lemma iterate_returns_shape theme max_iterations :
  forall (m : nat) lo st (w : World) st' w',
    Z.of_nat m = max_iterations - lo ->
    iterate runner researcher_prompt fact_check_prompt evaluator_prompt
      theme max_iterations (range lo (max_iterations + 1)) st w
    = (inr st', w') ->
    exists new_evs new_raw new_hist,
      evaluations st' = evaluations st ++ new_evs
      /\ raw_results st' = raw_results st ++ new_raw
      /\ fact_check_history st' = fact_check_history st ++ new_hist
      /\ stops_as_told (max_iterations - lo + 1) new_evs
      /\ EvaluationOutput.iteration_number <$> new_evs
         = range lo (lo + Z.of_nat (length new_evs))
      /\ RawResult.iteration <$> new_raw
         = range lo (lo + Z.of_nat (length new_evs))
      /\ FactCheckEntry.iteration <$> new_hist
         = range lo (lo + Z.of_nat (length new_evs)).
Proof.
  intros m. induction m as [|m IH]; intros lo st w st' w' Hm Hrun;
    rewrite range_cons in Hrun by lia; simpl in Hrun; unfold bind in Hrun;
    (destruct (research_step runner researcher_prompt theme lo st w)
       as [[e|r] w1]; [discriminate|]);
    (destruct (after_research runner fact_check_prompt evaluator_prompt theme
                 max_iterations lo r st w1)
       as [[e|[st1 stop]] w2] eqn:Hafter; [discriminate|]);
    apply after_research_inv in Hafter
      as (fact_check & w1' & evaluation & _ & _ & Hstop & Hevs & _ & Hraw
          & _ & _ & Hhist);
    match type of Hhist with
    | _ = fact_check_history (record_fact_check _ _ _ ?st0) =>
        destruct (record_fact_check_entry lo r fact_check st0)
          as (entry & Hentry & Hnum)
    end;
    rewrite Hentry in Hhist; simpl in Hhist;
    assert (Hone : stop = true ->
              exists new_evs new_raw new_hist,
                evaluations st1 = evaluations st ++ new_evs
                /\ raw_results st1 = raw_results st ++ new_raw
                /\ fact_check_history st1 = fact_check_history st ++ new_hist
                /\ stops_as_told (max_iterations - lo + 1) new_evs
                /\ EvaluationOutput.iteration_number <$> new_evs
                   = range lo (lo + Z.of_nat (length new_evs))
                /\ RawResult.iteration <$> new_raw
                   = range lo (lo + Z.of_nat (length new_evs))
                /\ FactCheckEntry.iteration <$> new_hist
                   = range lo (lo + Z.of_nat (length new_evs)))
      by (intros ->;
          exists [EvaluationOutput.set_iteration_number lo evaluation],
            [raw_result_of lo r], [entry];
          simpl; rewrite range_singleton, Hnum;
          repeat (split; [assumption || reflexivity|]);
          split; [|repeat split];
          exists [], (EvaluationOutput.set_iteration_number lo evaluation);
          simpl; repeat split; [constructor|lia|];
          intros Hlt; symmetry in Hstop;
          apply orb_true_iff in Hstop as [Hs|Hs];
          [now apply negb_true_iff in Hs
          |apply bool_decide_eq_true_1 in Hs; lia]).
  - assert (stop = true) as ->.
    { rewrite Hstop. rewrite (bool_decide_eq_true_2 (lo >= max_iterations))
        by lia. apply orb_true_r. }
    unfold ret in Hrun. inversion Hrun; subst. now apply Hone.
  - destruct stop.
    + unfold ret in Hrun. inversion Hrun; subst. now apply Hone.
    + clear Hone.
      apply (IH (lo + 1)) in Hrun
        as (evs & raws & hists & Hevs' & Hraw' & Hhist' & Hshape & Hn1 & Hn2
            & Hn3); [|lia].
      exists (EvaluationOutput.set_iteration_number lo evaluation :: evs),
        (raw_result_of lo r :: raws), (entry :: hists).
      rewrite Hevs', Hevs, Hraw', Hraw, Hhist', Hhist, <- !app_assoc.
      split; [reflexivity|]. split; [reflexivity|]. split; [reflexivity|].
      assert (Hrange : range lo (lo + Z.of_nat (length
                (EvaluationOutput.set_iteration_number lo evaluation :: evs)))
              = lo :: range (lo + 1) (lo + 1 + Z.of_nat (length evs))).
      { rewrite range_cons by (simpl; lia). do 2 f_equal. simpl. lia. }
      rewrite Hrange, !fmap_cons, Hn1, Hn2, Hn3, Hnum. simpl.
      split; [|repeat split].
      destruct Hshape as (continuing & final & -> & Hcont & Hlen & Hlast).
      exists (EvaluationOutput.set_iteration_number lo evaluation
              :: continuing), final.
      split; [reflexivity|]. split.
      * constructor; [|exact Hcont]. simpl.
        symmetry in Hstop. apply orb_false_iff in Hstop as [Hs _].
        now apply negb_false_iff in Hs.
      * simpl in *. split; [lia|]. intros Hlt. apply Hlast. lia.
Qed.

(** A property of the loop state that every completed iteration preserves
    holds at the exit of the loop. *)
Lemma iterate_invariant (P : LoopState -> Prop) theme max_iterations :
  (forall iteration r st (w : World) st' stop w',
      P st ->
      after_research runner fact_check_prompt evaluator_prompt theme
        max_iterations iteration r st w = (inr (st', stop), w') ->
      P st') ->
  forall iterations st (w : World) st' w',
    P st ->
    iterate runner researcher_prompt fact_check_prompt evaluator_prompt
      theme max_iterations iterations st w = (inr st', w') ->
    P st'.
Proof.
  intros Hstep iterations.
  induction iterations as [|iteration rest IH]; intros st w st' w' HP Hrun.
  - simpl in Hrun. unfold ret in Hrun. now inversion Hrun; subst.
  - simpl in Hrun. unfold bind in Hrun.
    destruct (research_step runner researcher_prompt theme iteration st w)
      as [[e|r] w1]; [discriminate|].
    destruct (after_research runner fact_check_prompt evaluator_prompt theme
                max_iterations iteration r st w1)
      as [[e|[st1 stop]] w2] eqn:Hafter; [discriminate|].
    pose proof (Hstep _ _ _ _ _ _ _ HP Hafter) as HP1.
    destruct stop.
    + unfold ret in Hrun. now inversion Hrun; subst.
    + now apply (IH st1 w2 st' w').
Qed.

Lemma run_agentic_research_inv theme max_iterations user_input (w : World)
    returned w' :
  run_agentic_research runner planner_prompt refinement_prompt
    researcher_prompt fact_check_prompt evaluator_prompt theme
    max_iterations user_input w = (inr returned, w') ->
  exists plan w0 st,
    plan_step runner planner_prompt refinement_prompt theme user_input w
    = (inr plan, w0)
    /\ iterate runner researcher_prompt fact_check_prompt evaluator_prompt
         theme max_iterations (range 1 (max_iterations + 1))
         (initial_state plan) w0
       = (inr st, w')
    /\ returned = returned_of st.
Proof.
  unfold run_agentic_research, research_loop, bind. intros Hrun.
  destruct (plan_step runner planner_prompt refinement_prompt theme
              user_input w) as [[e|plan] w0]; [discriminate|].
  destruct (iterate runner researcher_prompt fact_check_prompt
              evaluator_prompt theme max_iterations
              (range 1 (max_iterations + 1)) (initial_state plan) w0)
    as [[e|st] w1] eqn:Hiter; [discriminate|].
  unfold ret in Hrun. inversion Hrun; subst. now exists plan, w0, st.
Qed.

Lemma final_result_Some st final :
  final_result st = Some final ->
  ResearchResultOutput.findings final = accepted_findings st
  /\ ResearchResultOutput.evidence final = accepted_evidence st.
Proof.
  intros Hfinal. destruct (current_result st) as [r|] eqn:Hcur.
  - destruct (final_result_fields st r Hcur) as (final' & Hfinal' & Hf & He & _).
    rewrite Hfinal in Hfinal'. inversion Hfinal'; subst. now split.
  - unfold final_result, overwrite_findings, overwrite_evidence in Hfinal.
    rewrite Hcur in Hfinal. discriminate.
Qed.

(** X9. In the returned histories the entries are numbered 1, 2, ..., n in
    order, n being the number of evaluations: the evaluation list (whatever
    [iteration_number] the evaluator answered), the fact-check history and
    the raw records all carry the loop's own counter. *)
Theorem histories_numbered theme max_iterations user_input (w : World)
    plan final evs history raws w' :
  run_agentic_research runner planner_prompt refinement_prompt
    researcher_prompt fact_check_prompt evaluator_prompt theme
    max_iterations user_input w
  = (inr (plan, final, evs, history, raws), w') ->
  EvaluationOutput.iteration_number <$> evs
  = range 1 (1 + Z.of_nat (length evs))
  /\ FactCheckEntry.iteration <$> history
     = range 1 (1 + Z.of_nat (length evs))
  /\ RawResult.iteration <$> raws = range 1 (1 + Z.of_nat (length evs)).
Proof.
  intros Hrun.
  apply run_agentic_research_inv in Hrun as (plan0 & w0 & st & _ & Hiter & Hret).
  unfold returned_of in Hret. inversion Hret; subst. clear Hret.
  destruct (decide (1 <= max_iterations)) as [Hmax|Hmax].
  - destruct (iterate_returns_shape theme max_iterations
                (Z.to_nat (max_iterations - 1)) 1 _ _ _ _ ltac:(lia) Hiter)
      as (new_evs & new_raw & new_hist & Hevs & Hraw & Hhist & _ & Hn1 & Hn2
          & Hn3).
    simpl in Hevs, Hraw, Hhist. rewrite Hevs, Hraw, Hhist. auto.
  - unfold range in Hiter. rewrite seqZ_nil in Hiter by lia.
    simpl in Hiter. unfold ret in Hiter. inversion Hiter; subst. simpl.
    unfold range. rewrite seqZ_nil by lia. auto.
Qed.

(** X10. On any service, also one whose calls fail and are retried, a run
    with [max_iterations >= 1] that returns has executed between 1 and
    [max_iterations] iterations, with one raw record and one history entry
    each; every evaluation but the last asked to refine, and the last asked
    to stop unless the budget was used up. *)
Theorem loop_budget_any_service theme max_iterations user_input (w : World)
    plan final evs history raws w' :
  1 <= max_iterations ->
  run_agentic_research runner planner_prompt refinement_prompt
    researcher_prompt fact_check_prompt evaluator_prompt theme
    max_iterations user_input w
  = (inr (plan, final, evs, history, raws), w') ->
  stops_as_told max_iterations evs
  /\ 1 <= Z.of_nat (length evs) <= max_iterations
  /\ Z.of_nat (length evs)
     = match first_stop evs with
       | Some k => Z.min (Z.of_nat k) max_iterations
       | None => max_iterations
       end
  /\ length raws = length evs
  /\ length history = length evs.
Proof.
  intros Hmax Hrun.
  apply run_agentic_research_inv in Hrun as (plan0 & w0 & st & _ & Hiter & Hret).
  unfold returned_of in Hret. inversion Hret; subst. clear Hret.
  destruct (iterate_returns_shape theme max_iterations
              (Z.to_nat (max_iterations - 1)) 1 _ _ _ _ ltac:(lia) Hiter)
    as (new_evs & new_raw & new_hist & Hevs & Hraw & Hhist & Hshape & _ & Hn2
        & Hn3).
  simpl in Hevs, Hraw, Hhist. rewrite Hevs, Hraw, Hhist.
  replace (max_iterations - 1 + 1) with max_iterations in Hshape by lia.
  destruct (stops_as_told_count _ _ Hshape) as (Hbounds & Hmin).
  split; [exact Hshape|]. split; [exact Hbounds|]. split; [exact Hmin|].
  apply (f_equal length) in Hn2, Hn3.
  rewrite length_fmap, range_length in Hn2.
  rewrite length_fmap, range_length in Hn3. split; lia.
Qed.

(** X11. In the final result of a run no two findings share their
    80-character key, no two evidence items share their url, and no evidence
    has an empty url.  Read as texts, no two findings of the final result
    have the same first 80 characters. *)
Theorem final_result_keys_distinct theme max_iterations user_input (w : World)
    plan final evs history raws w' :
  run_agentic_research runner planner_prompt refinement_prompt
    researcher_prompt fact_check_prompt evaluator_prompt theme
    max_iterations user_input w
  = (inr (plan, Some final, evs, history, raws), w') ->
  NoDup (content_key <$> ResearchResultOutput.findings final)
  /\ NoDup (Evidence.url <$> ResearchResultOutput.evidence final)
  /\ Forall (fun e => Evidence.url e <> "")
            (ResearchResultOutput.evidence final)
  /\ forall texts,
       Finding.content <$> ResearchResultOutput.findings final
       = utf8 <$> texts ->
       NoDup (take 80 <$> texts).
Proof.
  intros Hrun.
  apply run_agentic_research_inv in Hrun as (plan0 & w0 & st & _ & Hiter & Hret).
  unfold returned_of in Hret. inversion Hret as [[Hplan Hfinal Hevs Hh Hr]].
  symmetry in Hfinal. apply final_result_Some in Hfinal as [-> ->].
  cut (NoDup (content_key <$> accepted_findings st)
       /\ NoDup (Evidence.url <$> accepted_evidence st)
       /\ Forall (fun e => Evidence.url e <> "") (accepted_evidence st)).
  { intros (Hkeys & Hurls & Hne). repeat split; try assumption.
    intros texts Hl. now apply (keys_NoDup_utf8 _ _ Hl). }
  apply (iterate_invariant
           (fun st => NoDup (content_key <$> accepted_findings st)
                      /\ NoDup (Evidence.url <$> accepted_evidence st)
                      /\ Forall (fun e => Evidence.url e <> "")
                                (accepted_evidence st))) in Hiter;
    [exact Hiter| |simpl; repeat split; constructor].
  intros iteration r st0 w1 st1 stop w2 (Hf & He & Hne) Hafter.
  apply after_research_inv in Hafter
    as (fact_check & w1' & evaluation & _ & _ & _ & _ & _ & _ & Hpf & Hpe & _).
  rewrite Hpf, Hpe. destruct fact_check as [fc|]; simpl; [|auto].
  split; [now apply accumulate_findings_NoDup|].
  split; [now apply accumulate_evidence_NoDup|].
  destruct (accumulate_evidence_app (accepted_evidence st0)
              (iteration_accepted_evidence r fc))
    as (added & -> & _ & Hadded).
  apply Forall_app. now split.
Qed.

(** X12. Everything in the final result is in the archive: each finding of
    the final result appears, content and source, among the findings of some
    raw record of the run, and each evidence appears, title, url and
    summary, among the evidence of some raw record. *)
Theorem final_result_archived theme max_iterations user_input (w : World)
    plan final evs history raws w' :
  run_agentic_research runner planner_prompt refinement_prompt
    researcher_prompt fact_check_prompt evaluator_prompt theme
    max_iterations user_input w
  = (inr (plan, Some final, evs, history, raws), w') ->
  Forall (fun f => exists raw,
            raw ∈ raws
            /\ RawResult.mk_finding (Finding.content f) (Finding.source f)
               ∈ RawResult.findings raw)
         (ResearchResultOutput.findings final)
  /\ Forall (fun e => exists raw,
               raw ∈ raws
               /\ RawResult.mk_evidence (Evidence.title e) (Evidence.url e)
                    (Evidence.summary e)
                  ∈ RawResult.evidence raw)
            (ResearchResultOutput.evidence final).
Proof.
  intros Hrun.
  apply run_agentic_research_inv in Hrun as (plan0 & w0 & st & _ & Hiter & Hret).
  unfold returned_of in Hret. inversion Hret as [[Hplan Hfinal Hevs Hh Hr]].
  symmetry in Hfinal. apply final_result_Some in Hfinal as [-> ->].
  apply (iterate_invariant
           (fun st =>
              Forall (fun f => exists raw,
                        raw ∈ raw_results st
                        /\ RawResult.mk_finding (Finding.content f)
                             (Finding.source f)
                           ∈ RawResult.findings raw)
                     (accepted_findings st)
              /\ Forall (fun e => exists raw,
                           raw ∈ raw_results st
                           /\ RawResult.mk_evidence (Evidence.title e)
                                (Evidence.url e) (Evidence.summary e)
                              ∈ RawResult.evidence raw)
                        (accepted_evidence st))) in Hiter;
    [exact Hiter| |simpl; split; constructor].
  intros iteration r st0 w1 st1 stop w2 (Hf & He) Hafter.
  apply after_research_inv in Hafter
    as (fact_check & w1' & evaluation & _ & _ & _ & _ & _ & Hraw & Hpf & Hpe
        & _).
  match type of Hpf with
  | _ = accepted_findings (record_fact_check _ _ _ ?st1) =>
      destruct (record_fact_check_pools iteration r fact_check st1)
        as (nf & ne & Hnf & Hne & Hsf & Hse & _)
  end.
  rewrite Hpf, Hpe, Hnf, Hne, Hraw. simpl.
  split; apply Forall_app; split.
  - eapply Forall_impl; [exact Hf|]. intros f (raw & Hin & Hraw').
    exists raw. split; [apply elem_of_app; now left|exact Hraw'].
  - apply Forall_forall. intros f Hin.
    exists (raw_result_of iteration r).
    split; [apply elem_of_app; right; now left|].
    apply (sublist_member _ _ _ Hsf) in Hin. simpl.
    now apply (list_elem_of_fmap_2
                 (fun f => RawResult.mk_finding (Finding.content f)
                             (Finding.source f))).
  - eapply Forall_impl; [exact He|]. intros e (raw & Hin & Hraw').
    exists raw. split; [apply elem_of_app; now left|exact Hraw'].
  - apply Forall_forall. intros e Hin.
    exists (raw_result_of iteration r).
    split; [apply elem_of_app; right; now left|].
    apply (sublist_member _ _ _ Hse) in Hin. simpl.
    now apply (list_elem_of_fmap_2
                 (fun e => RawResult.mk_evidence (Evidence.title e)
                             (Evidence.url e) (Evidence.summary e))).
Qed.

(** X13. The loop only appends: from whatever state it is started, at its
    exit the two pools, the evaluations, the fact-check history and the raw
    records extend what they held, so no later iteration retracts an
    accepted item or rewrites a history entry. *)
Theorem loop_only_appends theme max_iterations iterations st (w : World)
    st' w' :
  iterate runner researcher_prompt fact_check_prompt evaluator_prompt
    theme max_iterations iterations st w = (inr st', w') ->
  accepted_findings st `prefix_of` accepted_findings st'
  /\ accepted_evidence st `prefix_of` accepted_evidence st'
  /\ evaluations st `prefix_of` evaluations st'
  /\ fact_check_history st `prefix_of` fact_check_history st'
  /\ raw_results st `prefix_of` raw_results st'.
Proof.
  intros Hrun.
  apply (iterate_invariant
           (fun s => accepted_findings st `prefix_of` accepted_findings s
                     /\ accepted_evidence st `prefix_of` accepted_evidence s
                     /\ evaluations st `prefix_of` evaluations s
                     /\ fact_check_history st `prefix_of` fact_check_history s
                     /\ raw_results st `prefix_of` raw_results s)) in Hrun;
    [exact Hrun| |repeat split; reflexivity].
  intros iteration r st0 w1 st1 stop w2 (Hf & He & Hv & Hh & Hr) Hafter.
  apply after_research_inv in Hafter
    as (fact_check & w1' & evaluation & _ & _ & _ & Hevs & _ & Hraw & Hpf
        & Hpe & Hhist).
  match type of Hpf with
  | _ = accepted_findings (record_fact_check _ _ _ ?s1) =>
      destruct (record_fact_check_pools iteration r fact_check s1)
        as (nf & ne & Hnf & Hne & _);
      destruct (record_fact_check_entry iteration r fact_check s1)
        as (entry & Hentry & _)
  end.
  rewrite Hpf, Hpe, Hnf, Hne, Hevs, Hraw, Hhist, Hentry. simpl.
  repeat split; now apply prefix_app_r.
Qed.

(** X14. With [max_iterations <= 0] and a plan obtained, the loop body never
    runs: no researcher, fact-checker or evaluator call is made and the
    function returns the plan with no result ([None]) and three empty
    lists. *)
Theorem no_iteration_returns_no_result theme max_iterations user_input
    (w : World) plan w0 :
  max_iterations <= 0 ->
  plan_step runner planner_prompt refinement_prompt theme user_input w
  = (inr plan, w0) ->
  run_agentic_research runner planner_prompt refinement_prompt
    researcher_prompt fact_check_prompt evaluator_prompt theme
    max_iterations user_input w
  = (inr (plan, None, [], [], []), w0).
Proof.
  intros Hmax Hplan. unfold run_agentic_research, research_loop, bind.
  rewrite Hplan. unfold range. rewrite seqZ_nil by lia. reflexivity.
Qed.

(** *** Numbers that the prompts cannot print *)

Lemma fact_check_step_ok r (w : World) :
  never_raises runner ->
  exists fact_check w1,
    fact_check_step runner fact_check_prompt r w = (inr fact_check, w1).
Proof.
  intros Hok. unfold fact_check_step, bind.
  destruct (negb (list_truthy (ResearchResultOutput.evidence r))
            && negb (list_truthy (ResearchResultOutput.findings r))).
  - now eexists _, _.
  - destruct (run_with_retry_ok runner FactChecker (fact_check_prompt r)
                MAX_PARSE_RETRIES w Hok ltac:(done)) as (out & s' & ->).
    now eexists _, _.
Qed.

Lemma plan_step_ok theme user_input (w : World) :
  never_raises runner ->
  exists plan w0,
    plan_step runner planner_prompt refinement_prompt theme user_input w
    = (inr plan, w0).
Proof.
  intros Hok. unfold plan_step, bind.
  destruct (run_with_retry_ok runner Planner (planner_prompt theme)
              MAX_PARSE_RETRIES w Hok ltac:(done)) as (plan & s0 & ->).
  destruct (str_truthy user_input); [|now eexists _, _].
  match goal with
  | |- context [_run_with_retry runner Planner ?p ?k ?w0] =>
      destruct (run_with_retry_ok runner Planner p k w0 Hok ltac:(done))
        as (plan' & s0' & ->)
  end.
  now eexists _, _.
Qed.

(** X18. A verdict with a count of more than 4300 digits ends the run: the
    history entry is recorded, then the f-string that reports the counts to
    the evaluator raises [ValueError]; the evaluator is not called, the
    world is as the fact-check step left it. *)
Theorem unprintable_count_stops_iteration theme max_iterations iteration r st
    (w : World) fc w1 :
  fact_check_step runner fact_check_prompt r w = (inr (Some fc), w1) ->
  ~ printable (FactCheckResultOutput.total_verified fc)
  \/ ~ printable (FactCheckResultOutput.total_removed fc) ->
  after_research runner fact_check_prompt evaluator_prompt theme
    max_iterations iteration r st w
  = (inl int_str_limit_error, w1).
Proof.
  intros Hstep Hcounts. unfold after_research, bind, lift.
  rewrite Hstep. cbv zeta.
  rewrite (evaluator_numbers_unprintable_count _ _
             (checked_entry iteration fc));
    [reflexivity|apply last_snoc|exact Hcounts].
Qed.

(** X19. With [max_iterations] of more than 4300 digits no run returns on
    a service that answers every call: the first iteration raises when the
    evaluator's prompt is built, with [ValueError], or with [OverflowError]
    if the removal rate of the first verdict is too large for a [float]. *)
Theorem run_raises_beyond_limit theme max_iterations user_input (w : World) :
  int_str_bound <= max_iterations ->
  never_raises runner ->
  exists e w',
    run_agentic_research runner planner_prompt refinement_prompt
      researcher_prompt fact_check_prompt evaluator_prompt theme
      max_iterations user_input w
    = (inl e, w')
    /\ (e = int_str_limit_error \/ e = int_division_error).
Proof.
  intros Hmax Hok. pose proof int_str_bound_large as Hlarge.
  unfold run_agentic_research, research_loop, bind.
  destruct (plan_step_ok theme user_input w Hok) as (plan & w0 & ->).
  rewrite range_cons by lia. cbn [iterate]. unfold bind.
  unfold research_step, bind, lift. cbn [initial_state fact_check_history
    evaluations researcher_prompt_numbers last app].
  rewrite format_ints_printable
    by (repeat constructor; apply printable_small; lia).
  match goal with
  | |- context [_run_with_retry runner Researcher ?p ?k w0] =>
      destruct (run_with_retry_ok runner Researcher p k w0 Hok ltac:(done))
        as (r & s1 & ->)
  end.
  unfold after_research, bind, lift.
  match goal with
  | |- context [fact_check_step runner fact_check_prompt r ?w1] =>
      destruct (fact_check_step_ok r w1 Hok) as (fact_check & w2 & ->)
  end.
  cbv zeta.
  match goal with
  | |- context [evaluator_prompt_numbers ?evs ?h 1 max_iterations] =>
      destruct (evaluator_numbers_beyond_limit evs h 1 max_iterations)
        as (e & Hnumbers); [unfold printable; lia|];
      rewrite Hnumbers
  end.
  exists e, w2. split; [reflexivity|].
  exact (evaluator_numbers_inl _ _ _ _ _ Hnumbers).
Qed.

End RunInvariants.

(** ** The citation lookup of the report *)

Section CitationLookup.

Lemma str_in_empty (s : string) : str_in "" s = true.
Proof. unfold str_in. destruct s; reflexivity. Qed.

(** X17. When a finding has an empty source, or the first evidence has an
    empty title, the lookup stops at the first evidence: the finding is
    cited with it whatever the two texts are, since the empty string occurs
    in every string. *)
Theorem citation_with_empty_text (first : Evidence) (rest : list Evidence)
    (finding : Finding) :
  Finding.source finding = "" \/ Evidence.title first = "" ->
  matched_evidence (first :: rest) finding = Some first.
Proof.
  intros [Hsource|Htitle]; unfold matched_evidence; simpl.
  - rewrite Hsource, str_in_empty, orb_true_r. reflexivity.
  - rewrite Htitle, str_in_empty. reflexivity.
Qed.

End CitationLookup.

(** ** Instances of the further properties *)

Lemma demo_run_returns :
  demo_run demo_script 1
  = (inr (demo_returned_plan demo_script 1,
          Some (demo_final_result demo_script 1),
          demo_evaluations demo_script 1, demo_history demo_script 1,
          demo_raws demo_script 1),
     demo_run_world demo_script 1).
Proof. vm_compute. reflexivity. Qed.

Lemma demo_plan_step_runs :
  plan_step (scripted demo_script) demo_planner_prompt demo_refinement_prompt
    "theme" "" empty_world
  = (inr sample_plan,
     mkWorld 1%nat [mkCall Planner (demo_planner_prompt "theme")
                      (inr sample_plan)]).
Proof. vm_compute. reflexivity. Qed.



Lemma run_with_retry_negative_witness :
  -1 < 0
  /\ _run_with_retry (scripted demo_script) Researcher "p" (-1) empty_world
     = (inl (TypeError "exceptions must derive from BaseException"),
        empty_world).
Proof.
  split; [lia|].
  apply (run_with_retry_negative (scripted demo_script) Researcher "p" (-1)
           empty_world). lia.
Defined.

Lemma accumulate_keeps_keys_distinct_witness :
  NoDup (content_key <$> [japanese_X; long_X])
  /\ NoDup (Evidence.url <$> @nil Evidence)
  /\ Forall (fun e => Evidence.url e <> "") (@nil Evidence)
  /\ NoDup (content_key
              <$> accumulate_findings [japanese_X; long_X]
                    [japanese_Y; long_Y; japanese_X])
  /\ NoDup (Evidence.url <$> accumulate_evidence [] (demo_evidence ++ demo_evidence))
  /\ Forall (fun e => Evidence.url e <> "")
            (accumulate_evidence [] (demo_evidence ++ demo_evidence)).
Proof.
  assert (H1 : NoDup (content_key <$> [japanese_X; long_X])).
  { apply (bool_decide_unpack _). vm_compute. reflexivity. }
  assert (H2 : NoDup (Evidence.url <$> @nil Evidence)) by constructor.
  assert (H3 : Forall (fun e => Evidence.url e <> "") (@nil Evidence))
    by constructor.
  split; [exact H1|]. split; [exact H2|]. split; [exact H3|].
  destruct (accumulate_keeps_keys_distinct [japanese_X; long_X]
              [japanese_Y; long_Y; japanese_X]
              [] (demo_evidence ++ demo_evidence) H1 H2 H3)
    as (Hf & He & Hne & _).
  auto.
Defined.

Lemma plan_after_iteration_witness :
  exists evaluation,
    last (evaluations (demo_iteration_state demo_script demo_result))
    = Some evaluation
    /\ current_plan (demo_iteration_state demo_script demo_result)
       = if demo_iteration_stop demo_script demo_result
         then current_plan demo_state
         else match EvaluationOutput.refined_plan evaluation with
              | Some refined => refined
              | None => current_plan demo_state
              end.
Proof.
  destruct (plan_after_iteration (scripted demo_script)
              demo_fact_check_prompt demo_evaluator_prompt "theme" 3 1
              demo_result demo_state empty_world
              (demo_iteration_state demo_script demo_result)
              (demo_iteration_stop demo_script demo_result)
              (demo_iteration_world demo_script demo_result)
              demo_iteration_runs)
    as (evaluation & Hlast & _ & _ & Hplan).
  exists evaluation. auto.
Defined.

Lemma fact_check_issued_when_nonempty_witness :
  (ResearchResultOutput.findings demo_result <> []
   \/ ResearchResultOutput.evidence demo_result <> [])
  /\ exists first rest,
       [mkCall FactChecker (demo_fact_check_prompt demo_result)
          (inr demo_verdict)]
       = calls empty_world ++ first :: rest
       /\ call_prompt first = demo_fact_check_prompt demo_result.
Proof.
  assert (Hne : ResearchResultOutput.findings demo_result <> []
                \/ ResearchResultOutput.evidence demo_result <> [])
    by (left; discriminate).
  split; [exact Hne|].
  destruct (fact_check_issued_when_nonempty (scripted demo_script)
              demo_fact_check_prompt demo_result empty_world _ _ Hne
              demo_iteration_checks)
    as (_ & first & rest & Hcalls & _ & Hprompt & _).
  exists first, rest. auto.
Defined.

Lemma busy_run_returns :
  run_agentic_research (scripted busy_script) demo_planner_prompt
    demo_refinement_prompt demo_researcher_prompt demo_fact_check_prompt
    demo_evaluator_prompt "theme" 5 "" empty_world
  = (inr (demo_returned_plan busy_script 5,
          Some (demo_final_result busy_script 5),
          demo_evaluations busy_script 5, demo_history busy_script 5,
          demo_raws busy_script 5),
     demo_run_world busy_script 5).
Proof. vm_compute. reflexivity. Qed.

(** Three iterations, whose evaluations the evaluator all numbered 9. *)
Lemma histories_numbered_witness :
  length (demo_evaluations busy_script 5) = 3%nat
  /\ (forall n, exists ev,
        on_evaluator busy_script n = inr ev
        /\ EvaluationOutput.iteration_number ev = 9)
  /\ EvaluationOutput.iteration_number <$> demo_evaluations busy_script 5
     = range 1 (1 + Z.of_nat (length (demo_evaluations busy_script 5)))
  /\ FactCheckEntry.iteration <$> demo_history busy_script 5
     = range 1 (1 + Z.of_nat (length (demo_evaluations busy_script 5)))
  /\ RawResult.iteration <$> demo_raws busy_script 5
     = range 1 (1 + Z.of_nat (length (demo_evaluations busy_script 5))).
Proof.
  split; [vm_compute; reflexivity|].
  split; [intros n; eexists; split; reflexivity|].
  exact (histories_numbered (scripted busy_script) demo_planner_prompt
           demo_refinement_prompt demo_researcher_prompt
           demo_fact_check_prompt demo_evaluator_prompt "theme" 5 ""
           empty_world (demo_returned_plan busy_script 5)
           (Some (demo_final_result busy_script 5))
           (demo_evaluations busy_script 5) (demo_history busy_script 5)
           (demo_raws busy_script 5) (demo_run_world busy_script 5)
           busy_run_returns).
Defined.

Lemma loop_budget_any_service_witness :
  1 <= 1
  /\ stops_as_told 1 (demo_evaluations demo_script 1)
  /\ length (demo_raws demo_script 1)
     = length (demo_evaluations demo_script 1)
  /\ length (demo_history demo_script 1)
     = length (demo_evaluations demo_script 1).
Proof.
  split; [lia|].
  destruct (loop_budget_any_service (scripted demo_script)
              demo_planner_prompt demo_refinement_prompt
              demo_researcher_prompt demo_fact_check_prompt
              demo_evaluator_prompt "theme" 1 "" empty_world _ _ _ _ _ _
              ltac:(lia) demo_run_returns)
    as (Hshape & _ & _ & Hraws & Hhist).
  auto.
Defined.

(** The result of the run of three iterations: an English and a Japanese
    finding, whose keys differ. *)
Lemma final_result_keys_distinct_witness :
  ResearchResultOutput.findings (demo_final_result busy_script 5)
  = [Finding.mk "Agents act autonomously" "source A"; japanese_Y]
  /\ NoDup (content_key
              <$> ResearchResultOutput.findings
                    (demo_final_result busy_script 5))
  /\ NoDup (Evidence.url
              <$> ResearchResultOutput.evidence
                    (demo_final_result busy_script 5))
  /\ Forall (fun e => Evidence.url e <> "")
            (ResearchResultOutput.evidence (demo_final_result busy_script 5)).
Proof.
  split; [vm_compute; reflexivity|].
  destruct (final_result_keys_distinct (scripted busy_script)
              demo_planner_prompt demo_refinement_prompt demo_researcher_prompt
              demo_fact_check_prompt demo_evaluator_prompt "theme" 5 ""
              empty_world (demo_returned_plan busy_script 5)
              (demo_final_result busy_script 5)
              (demo_evaluations busy_script 5) (demo_history busy_script 5)
              (demo_raws busy_script 5) (demo_run_world busy_script 5)
              busy_run_returns)
    as (Hf & He & Hne & _).
  auto.
Defined.

Lemma final_result_archived_witness :
  Forall (fun f => exists raw,
            raw ∈ demo_raws demo_script 1
            /\ RawResult.mk_finding (Finding.content f) (Finding.source f)
               ∈ RawResult.findings raw)
         (ResearchResultOutput.findings (demo_final_result demo_script 1))
  /\ Forall (fun e => exists raw,
               raw ∈ demo_raws demo_script 1
               /\ RawResult.mk_evidence (Evidence.title e) (Evidence.url e)
                    (Evidence.summary e)
                  ∈ RawResult.evidence raw)
            (ResearchResultOutput.evidence (demo_final_result demo_script 1)).
Proof.
  exact (final_result_archived (scripted demo_script)
           demo_planner_prompt demo_refinement_prompt demo_researcher_prompt
           demo_fact_check_prompt demo_evaluator_prompt "theme" 1 ""
           empty_world _ _ _ _ _ _ demo_run_returns).
Defined.

Lemma busy_rest_runs :
  iterate (scripted busy_script) demo_researcher_prompt
    demo_fact_check_prompt demo_evaluator_prompt "theme" 5 (range 2 (5 + 1))
    busy_state busy_world
  = (inr busy_final_state, busy_rest.2).
Proof. vm_compute. reflexivity. Qed.

(** The second and third iteration of the run of three, started from the
    state the first one left: one accepted finding, one accepted evidence,
    one evaluation, one history entry and one raw record, which are all
    still there, in front, when the loop exits. *)
Lemma loop_only_appends_witness :
  accepted_findings busy_state = [Finding.mk "Agents act autonomously" "source A"]
  /\ accepted_findings busy_final_state
     = [Finding.mk "Agents act autonomously" "source A"; japanese_Y]
  /\ (length (accepted_evidence busy_state) = 1
      /\ length (evaluations busy_state) = 1
      /\ length (fact_check_history busy_state) = 1
      /\ length (raw_results busy_state) = 1)%nat
  /\ (length (evaluations busy_final_state) = 3
      /\ length (fact_check_history busy_final_state) = 3
      /\ length (raw_results busy_final_state) = 3)%nat
  /\ accepted_findings busy_state
       `prefix_of` accepted_findings busy_final_state
  /\ accepted_evidence busy_state
       `prefix_of` accepted_evidence busy_final_state
  /\ evaluations busy_state `prefix_of` evaluations busy_final_state
  /\ fact_check_history busy_state
       `prefix_of` fact_check_history busy_final_state
  /\ raw_results busy_state `prefix_of` raw_results busy_final_state.
Proof.
  split; [vm_compute; reflexivity|]. split; [vm_compute; reflexivity|].
  split; [vm_compute; repeat split; reflexivity|].
  split; [vm_compute; repeat split; reflexivity|].
  exact (loop_only_appends (scripted busy_script)
           demo_researcher_prompt demo_fact_check_prompt
           demo_evaluator_prompt "theme" 5 (range 2 (5 + 1)) busy_state
           busy_world busy_final_state busy_rest.2 busy_rest_runs).
Defined.

Lemma no_iteration_returns_no_result_witness :
  0 <= 0
  /\ demo_run demo_script 0
     = (inr (sample_plan, None, [], [], []),
        mkWorld 1%nat [mkCall Planner (demo_planner_prompt "theme")
                         (inr sample_plan)]).
Proof.
  split; [lia|].
  apply (no_iteration_returns_no_result (scripted demo_script)
           demo_planner_prompt demo_refinement_prompt demo_researcher_prompt
           demo_fact_check_prompt demo_evaluator_prompt "theme" 0 ""
           empty_world); [lia|exact demo_plan_step_runs].
Defined.

Lemma citation_with_empty_text_witness :
  (Finding.source (Finding.mk "a finding without source" "") = ""
   \/ Evidence.title (Evidence.mk "T1" "https://example.com/1" "S1") = "")
  /\ matched_evidence demo_evidence (Finding.mk "a finding without source" "")
     = Some (Evidence.mk "T1" "https://example.com/1" "S1").
Proof.
  assert (H : Finding.source (Finding.mk "a finding without source" "") = ""
              \/ Evidence.title (Evidence.mk "T1" "https://example.com/1" "S1")
                 = "") by (left; reflexivity).
  split; [exact H|].
  exact (citation_with_empty_text (Evidence.mk "T1" "https://example.com/1" "S1")
           _ (Finding.mk "a finding without source" "") H).
Defined.

Lemma huge_count_checks :
  fact_check_step (scripted huge_count_script) demo_fact_check_prompt
    demo_result empty_world
  = (inr (Some huge_verdict),
     mkWorld 1%nat
       [mkCall FactChecker (demo_fact_check_prompt demo_result)
          (inr huge_verdict)]).
Proof. vm_compute. reflexivity. Qed.

Lemma unprintable_count_stops_iteration_witness :
  (~ printable (FactCheckResultOutput.total_verified huge_verdict)
   \/ ~ printable (FactCheckResultOutput.total_removed huge_verdict))
  /\ demo_after_research huge_count_script demo_result
     = (inl int_str_limit_error,
        mkWorld 1%nat
          [mkCall FactChecker (demo_fact_check_prompt demo_result)
             (inr huge_verdict)]).
Proof.
  assert (Hcount :
    ~ printable (FactCheckResultOutput.total_verified huge_verdict)
    \/ ~ printable (FactCheckResultOutput.total_removed huge_verdict)).
  { left. unfold printable. simpl. lia. }
  split; [exact Hcount|].
  exact (unprintable_count_stops_iteration (scripted huge_count_script)
           demo_fact_check_prompt demo_evaluator_prompt "theme" 3 1
           demo_result demo_state empty_world huge_verdict _
           huge_count_checks Hcount).
Defined.

Lemma run_raises_beyond_limit_witness :
  int_str_bound <= int_str_bound
  /\ never_raises (scripted demo_script)
  /\ exists e w',
       demo_run demo_script int_str_bound = (inl e, w')
       /\ (e = int_str_limit_error \/ e = int_division_error).
Proof.
  split; [lia|]. split; [exact scripted_never_raises_demo|].
  exact (run_raises_beyond_limit (scripted demo_script) demo_planner_prompt
           demo_refinement_prompt demo_researcher_prompt
           demo_fact_check_prompt demo_evaluator_prompt "theme"
           int_str_bound "" empty_world ltac:(lia)
           scripted_never_raises_demo).
Defined.
